(** * GitLab MCP server: the tool catalog, the read-only gate and the
      [CallTool] dispatch of [src/index.ts]

    The development embeds the two request handlers of [src/index.ts]
    ([ListToolsRequestSchema] and [CallToolRequestSchema]) together with the
    catalog [ALL_TOOLS].  JavaScript values are an untyped tree, the handler
    runs in a small state-and-exception monad whose state is the GitLab
    backend together with the log of the calls issued on it, and the
    collaborators that live in other modules ([schemas.ts], [gitlab-api.ts],
    [formatters.ts], [utils.ts], zod, [JSON]) are the fields of one record. *)

From Stdlib Require Import String Ascii List ZArith Bool Lia DecimalString.
Import ListNotations.
Local Open Scope string_scope.
Local Open Scope list_scope.

(** ** JavaScript values *)

Module Js.

(** A JavaScript value.  Numbers carry an integer, which is what the
    arguments [page], [per_page] and the identifiers are; [JNaN] is the
    result of a failed numeric conversion.  An object is the ordered list
    of its own properties. *)
#[local] Set Warnings "-register-all".
Inductive Value : Type :=
| JUndefined
| JNull
| JBool (b : bool)
| JNum (n : Z)
| JNaN
| JStr (s : string)
| JArr (items : list Value)
| JObj (props : list (string * Value)).

(** The properties of an object, in insertion order. *)
Definition Obj : Type := list (string * Value).

(** [ToBoolean]: what [if (v)], [!v], [v && w] and [v || w] test. *)
Definition truthy (v : Value) : bool :=
  match v with
  | JUndefined | JNull | JNaN => false
  | JBool b => b
  | JNum n => negb (n =? 0)%Z
  | JStr s => negb (s =? "")
  | JArr _ | JObj _ => true
  end.

(** [o.k] on an object: the property, or [undefined]. *)
Fixpoint get (o : Obj) (k : string) : Value :=
  match o with
  | [] => JUndefined
  | (k', v) :: o' => if k' =? k then v else get o' k
  end.

(** [const { k, ...rest } = o]: the properties other than [k]. *)
Definition rest (o : Obj) (k : string) : Obj :=
  filter (fun kv => negb (fst kv =? k)) o.

(** [typeof v === 'string'] *)
Definition is_string (v : Value) : bool :=
  match v with JStr _ => true | _ => false end.

(** [v || w] *)
Definition or_else (v w : Value) : Value := if truthy v then v else w.

(** Decimal rendering of an integer, as [Number.prototype.toString]. *)
Definition string_of_Z (n : Z) : string := NilZero.string_of_int (Z.to_int n).

(** [String(v)], the conversion a template literal applies. *)
Fixpoint to_string (v : Value) : string :=
  match v with
  | JUndefined => "undefined"
  | JNull => "null"
  | JBool true => "true"
  | JBool false => "false"
  | JNum n => string_of_Z n
  | JNaN => "NaN"
  | JStr s => s
  | JArr items =>
      String.concat ","
        (map (fun x => match x with
                       | JUndefined | JNull => ""
                       | _ => to_string x
                       end) items)
  | JObj _ => "[object Object]"
  end.

(** [s.includes(sub)] *)
Fixpoint includes (s sub : string) : bool :=
  prefix sub s
  || match s with
     | EmptyString => false
     | String _ s' => includes s' sub
     end.

End Js.
Import Js.

Notation "o '.[' k ']'" := (get o k)
  (at level 1, left associativity, format "o .[ k ]").

(** ** Errors thrown inside the handler *)

(** One issue of a [z.ZodError]: the path of the offending field (keys and
    array indices) and the reason. *)
Inductive PathSeg : Type :=
| Key (k : string)
| Index (i : N).

Record ZodIssue : Type := { path : list PathSeg; message : string }.

(** What a [throw] carries: a [z.ZodError] with its issues, or any other
    [Error] with its message. *)
Inductive JsError : Type :=
| ZodError (errors : list ZodIssue)
| Error (msg : string).

(** ** The schemas of [schemas.ts] that [index.ts] refers to *)

Inductive Schema : Type :=
| CreateOrUpdateFileSchema | SearchRepositoriesSchema | CreateRepositorySchema
| GetFileContentsSchema | PushFilesSchema | CreateIssueSchema
| CreateMergeRequestSchema | ForkRepositorySchema | CreateBranchSchema
| ListGroupProjectsSchema | GetProjectEventsSchema | ListCommitsSchema
| ListIssuesSchema | ListMergeRequestsSchema | ListProjectWikiPagesSchema
| GetProjectWikiPageSchema | CreateProjectWikiPageSchema
| EditProjectWikiPageSchema | DeleteProjectWikiPageSchema
| UploadProjectWikiAttachmentSchema | ListGroupWikiPagesSchema
| GetGroupWikiPageSchema | CreateGroupWikiPageSchema | EditGroupWikiPageSchema
| DeleteGroupWikiPageSchema | UploadGroupWikiAttachmentSchema
| ListProjectMembersSchema | ListGroupMembersSchema | ListIssueNotesSchema
| ListIssueDiscussionsSchema | ListPipelinesSchema | GetPipelineSchema
| GetPipelineJobsSchema | GetJobSchema | GetJobLogSchema | CreatePipelineSchema
| RetryPipelineSchema | CancelPipelineSchema | RetryJobSchema | CancelJobSchema
| ListProjectsSchema | GetProjectSchema | ValidateCIYamlSchema
| GetProjectRunnersSchema | ListSharedRunnersSchema | GetRunnerDetailsSchema
| EnableProjectRunnerSchema | DisableProjectRunnerSchema | RegisterRunnerSchema
| ValidateRunnerTagsSchema | UpdateRunnerSettingsSchema | GetRunnerJobsSchema
| RunnerHealthCheckSchema.

(** ** The backend and the other collaborators *)

(** A method call on the [gitlabApi] client: [gitlabApi.method(params...)]. *)
Record ApiCall : Type := { method : string; params : list Value }.

(** Everything [index.ts] imports and does not define.  [World] is the state
    of the GitLab instance behind the client; a call either throws or
    returns a value, and leaves a new state.  [Schema_parse] is zod's
    [schema.parse] on these object schemas: the parsed object, or the
    issues of the [ZodError] it throws.  [Number] and [JSON_stringify] are
    the built-ins [Number(v)] and [JSON.stringify(v, null, 2)]. *)
Record Collaborators : Type := {
  World : Type;
  gitlabApi : ApiCall -> World -> (JsError + Value) * World;
  Schema_parse : Schema -> Value -> list ZodIssue + Obj;
  zodToJsonSchema : Schema -> Obj;
  isValidISODate : Value -> bool;
  Number : Value -> Value;
  JSON_stringify : Value -> Value;
  formatEventsResponse : Value -> Value;
  formatCommitsResponse : Value -> Value;
  formatIssuesResponse : Value -> Value;
  formatMergeRequestsResponse : Value -> Value;
  formatWikiPagesResponse : Value -> Value;
  formatWikiPageResponse : Value -> Value;
  formatWikiAttachmentResponse : Value -> Value;
  formatMembersResponse : Value -> Value;
  formatNotesResponse : Value -> Value;
  formatDiscussionsResponse : Value -> Value
}.

(** ** The handler monad: backend state, call log and exceptions *)

Section Gateway.

Variable X : Collaborators.

(** The state an invocation runs against: the GitLab instance and the
    calls issued on it so far, oldest first. *)
Record Backend : Type := { world : World X; calls : list ApiCall }.

(** An [async] computation: it runs against the backend and either throws
    or returns. *)
Definition M (A : Type) : Type := Backend -> (JsError + A) * Backend.

Definition ret {A} (a : A) : M A := fun st => (inr a, st).

Definition throw {A} (e : JsError) : M A := fun st => (inl e, st).

Definition bind {A B} (m : M A) (k : A -> M B) : M B :=
  fun st =>
    match m st with
    | (inl e, st') => (inl e, st')
    | (inr a, st') => k a st'
    end.

(** [try { m } catch (error) { h error }] *)
Definition try_catch {A} (m : M A) (h : JsError -> M A) : M A :=
  fun st =>
    match m st with
    | (inl e, st') => h e st'
    | (inr a, st') => (inr a, st')
    end.

(** A pure step that may throw. *)
Definition lift {A} (r : JsError + A) : M A :=
  match r with
  | inl e => throw e
  | inr a => ret a
  end.

(** [await gitlabApi.method(params...)]: the call is logged and run. *)
Definition call (method : string) (params : list Value) : M Value :=
  fun st =>
    let c := {| method := method; params := params |} in
    let (r, w) := gitlabApi X c (world st) in
    (r, {| world := w; calls := calls st ++ [c] |}).

Notation "x <- c1 ;; c2" := (bind c1 (fun x => c2))
  (at level 61, c1 at next level, right associativity).

(** ** The tool catalog *)

Record Tool : Type := {
  name : string;
  description : string;
  inputSchema : Value;
  readOnly : bool
}.

(** [createJsonSchema]: the [properties] of the converted schema, or an
    empty object, under a fixed ["object"] type. *)
Definition createJsonSchema (schema : Schema) : Value :=
  let jsonSchema := zodToJsonSchema X schema in
  JObj [("type", JStr "object");
        ("properties", or_else jsonSchema.["properties"] (JObj []))].

Definition tool (n d : string) (schema : Schema) (ro : bool) : Tool :=
  {| name := n; description := d;
     inputSchema := createJsonSchema schema; readOnly := ro |}.

Definition ALL_TOOLS : list Tool :=
  [
    tool "create_or_update_file"
      "Create or update a single file in a GitLab project"
      CreateOrUpdateFileSchema false;
    tool "search_repositories"
      "Search for GitLab projects"
      SearchRepositoriesSchema true;
    tool "create_repository"
      "Create a new GitLab project"
      CreateRepositorySchema false;
    tool "get_file_contents"
      "Get the contents of a file or directory from a GitLab project"
      GetFileContentsSchema true;
    tool "push_files"
      "Push multiple files to a GitLab project in a single commit"
      PushFilesSchema false;
    tool "create_issue"
      "Create a new issue in a GitLab project"
      CreateIssueSchema false;
    tool "create_merge_request"
      "Create a new merge request in a GitLab project"
      CreateMergeRequestSchema false;
    tool "fork_repository"
      "Fork a GitLab project to your account or specified namespace"
      ForkRepositorySchema false;
    tool "create_branch"
      "Create a new branch in a GitLab project"
      CreateBranchSchema false;
    tool "list_group_projects"
      "List all projects (repositories) within a specific GitLab group"
      ListGroupProjectsSchema true;
    tool "get_project_events"
      "Get recent events/activities for a GitLab project"
      GetProjectEventsSchema true;
    tool "list_commits"
      "Get commit history for a GitLab project"
      ListCommitsSchema true;
    tool "list_issues"
      "Get issues for a GitLab project"
      ListIssuesSchema true;
    tool "list_merge_requests"
      "Get merge requests for a GitLab project"
      ListMergeRequestsSchema true;
    tool "list_project_wiki_pages"
      "List all wiki pages for a GitLab project"
      ListProjectWikiPagesSchema true;
    tool "get_project_wiki_page"
      "Get a specific wiki page for a GitLab project"
      GetProjectWikiPageSchema true;
    tool "create_project_wiki_page"
      "Create a new wiki page for a GitLab project"
      CreateProjectWikiPageSchema false;
    tool "edit_project_wiki_page"
      "Edit an existing wiki page for a GitLab project"
      EditProjectWikiPageSchema false;
    tool "delete_project_wiki_page"
      "Delete a wiki page from a GitLab project"
      DeleteProjectWikiPageSchema false;
    tool "upload_project_wiki_attachment"
      "Upload an attachment to a GitLab project wiki"
      UploadProjectWikiAttachmentSchema false;
    tool "list_group_wiki_pages"
      "List all wiki pages for a GitLab group"
      ListGroupWikiPagesSchema true;
    tool "get_group_wiki_page"
      "Get a specific wiki page for a GitLab group"
      GetGroupWikiPageSchema true;
    tool "create_group_wiki_page"
      "Create a new wiki page for a GitLab group"
      CreateGroupWikiPageSchema false;
    tool "edit_group_wiki_page"
      "Edit an existing wiki page for a GitLab group"
      EditGroupWikiPageSchema false;
    tool "delete_group_wiki_page"
      "Delete a wiki page from a GitLab group"
      DeleteGroupWikiPageSchema false;
    tool "upload_group_wiki_attachment"
      "Upload an attachment to a GitLab group wiki"
      UploadGroupWikiAttachmentSchema false;
    tool "list_project_members"
      "List all members of a GitLab project (including inherited members)"
      ListProjectMembersSchema true;
    tool "list_group_members"
      "List all members of a GitLab group (including inherited members)"
      ListGroupMembersSchema true;
    tool "list_issue_notes"
      "Fetch all comments and system notes for a GitLab issue"
      ListIssueNotesSchema true;
    tool "list_issue_discussions"
      "Fetch all discussions (threaded comments) for a GitLab issue"
      ListIssueDiscussionsSchema true;
    tool "list_pipelines"
      "List pipelines for a GitLab project"
      ListPipelinesSchema true;
    tool "get_pipeline"
      "Get details of a specific pipeline"
      GetPipelineSchema true;
    tool "get_pipeline_jobs"
      "List jobs in a specific pipeline"
      GetPipelineJobsSchema true;
    tool "get_job"
      "Get details of a specific job"
      GetJobSchema true;
    tool "get_job_log"
      "Get job execution log/trace"
      GetJobLogSchema true;
    tool "create_pipeline"
      "Create a new pipeline"
      CreatePipelineSchema false;
    tool "retry_pipeline"
      "Retry a failed pipeline"
      RetryPipelineSchema false;
    tool "cancel_pipeline"
      "Cancel a running pipeline"
      CancelPipelineSchema false;
    tool "retry_job"
      "Retry a specific job"
      RetryJobSchema false;
    tool "cancel_job"
      "Cancel a running job"
      CancelJobSchema false;
    tool "list_projects"
      "List GitLab projects"
      ListProjectsSchema true;
    tool "get_project"
      "Get project details"
      GetProjectSchema true;
    tool "validate_ci_yaml"
      "Validate GitLab CI YAML configuration using GitLab's lint API"
      ValidateCIYamlSchema true;
    tool "get_project_runners"
      "Get all runners available for a specific project"
      GetProjectRunnersSchema true;
    tool "list_shared_runners"
      "List all shared runners available in the GitLab instance"
      ListSharedRunnersSchema true;
    tool "get_runner_details"
      "Get detailed information about a specific runner"
      GetRunnerDetailsSchema true;
    tool "enable_project_runner"
      "Enable a specific runner for a project"
      EnableProjectRunnerSchema false;
    tool "disable_project_runner"
      "Disable a specific runner for a project"
      DisableProjectRunnerSchema false;
    tool "register_runner"
      "Register a new runner with GitLab"
      RegisterRunnerSchema false;
    tool "validate_runner_tags"
      "Validate runner tags and check available tags for a project"
      ValidateRunnerTagsSchema true;
    tool "update_runner_settings"
      "Update settings and configuration for a specific runner"
      UpdateRunnerSettingsSchema false;
    tool "get_runner_jobs"
      "Get job history and execution details for a specific runner"
      GetRunnerJobsSchema true;
    tool "runner_health_check"
      "Perform health check and status verification for a runner"
      RunnerHealthCheckSchema true
  ].

(** ** Listing *)

(** What a listing shows of a tool: [{ name, description, inputSchema }]. *)
Definition descriptor (t : Tool) : Value :=
  JObj [("name", JStr (name t));
        ("description", JStr (description t));
        ("inputSchema", inputSchema t)].

(** The handler registered for [ListToolsRequestSchema], under the value
    of the process-wide flag. *)
Definition ListTools (GITLAB_READ_ONLY_MODE : bool) : Value :=
  if GITLAB_READ_ONLY_MODE then
    JObj [("tools", JArr (map descriptor (filter readOnly ALL_TOOLS)))]
  else
    JObj [("tools", JArr (map descriptor ALL_TOOLS))].

(** ** Pieces shared by the cases of the [switch] *)

(** [{ content: [{ type: "text", text }] }] *)
Definition text_content (text : Value) : Value :=
  JObj [("content", JArr [JObj [("type", JStr "text"); ("text", text)]])].

(** [{ content: [{ type: "text", text: JSON.stringify(v, null, 2) }] }] *)
Definition json_content (v : Value) : Value :=
  text_content (JSON_stringify X v).

(** [v < n] and [v > n] against a numeric literal: a number is compared as
    it is, any other value through its numeric conversion, and a [NaN]
    compares false. *)
Definition to_number (v : Value) : option Z :=
  match (match v with JNum _ => v | _ => Number X v end) with
  | JNum n => Some n
  | _ => None
  end.

Definition lt (v : Value) (n : Z) : bool :=
  match to_number v with Some m => (m <? n)%Z | None => false end.

Definition gt (v : Value) (n : Z) : bool :=
  match to_number v with Some m => (m >? n)%Z | None => false end.

(** [if (cond) throw new Error(msg)] *)
Definition when (cond : bool) (msg : string) : JsError + unit :=
  if cond then inl (Error msg) else inr tt.

(** Two statements in sequence. *)
Definition and_then (a b : JsError + unit) : JsError + unit :=
  match a with
  | inl e => inl e
  | inr _ => b
  end.

Notation "a >> b" := (and_then a b) (at level 62, right associativity).

(** [l.forEach(f)] for an [f] that may throw. *)
Fixpoint forEach {A} (l : list A) (f : A -> JsError + unit) : JsError + unit :=
  match l with
  | [] => inr tt
  | x :: l' => f x >> forEach l' f
  end.

(** [v.k] on an arbitrary value: reading a property of [undefined] or
    [null] throws a [TypeError]; the keys read here are not properties of
    a primitive or of an array. *)
Definition member (v : Value) (k : string) : M Value :=
  match v with
  | JUndefined | JNull =>
      throw (Error ("Cannot read properties of " ++ to_string v
                    ++ " (reading '" ++ k ++ "')"))
  | JObj o => ret o.[k]
  | _ => ret JUndefined
  end.

(** [for (const x of v)]: the elements of an array, the characters of a
    string; anything else is not iterable. *)
Definition iterate (v : Value) : M (list Value) :=
  match v with
  | JArr items => ret items
  | JStr s => ret (map (fun c => JStr (String c "")) (list_ascii_of_string s))
  | _ => throw (Error (to_string v ++ " is not iterable"))
  end.

(** One [case] of the [switch]: the schema its first statement parses the
    arguments with, the additional validation that follows and throws
    before anything is awaited, and the rest of the block. *)
Record ToolCase : Type := {
  schema : Schema;
  checks : Obj -> JsError + unit;
  body : Obj -> M Value
}.

Definition no_checks (args : Obj) : JsError + unit := inr tt.

(** The additional validation for pagination parameters, which six cases
    repeat word for word. *)
Definition check_per_page (args : Obj) : JsError + unit :=
  when (truthy args.["per_page"]
        && (lt args.["per_page"] 1 || gt args.["per_page"] 100))
       "per_page must be between 1 and 100".

Definition check_page (args : Obj) : JsError + unit :=
  when (truthy args.["page"] && lt args.["page"] 1)
       "page must be greater than 0".

(** The [dateFields.forEach] of [list_issues] and [list_merge_requests]. *)
Definition dateFields : list string :=
  ["created_after"; "created_before"; "updated_after"; "updated_before"].

Definition check_dateFields (args : Obj) : JsError + unit :=
  forEach dateFields (fun field =>
    let value := args.[field] in
    when (is_string value && negb (isValidISODate X value))
         (field ++ " must be a valid ISO 8601 date (YYYY-MM-DDTHH:MM:SSZ)")).

(** ** The cases of the [switch], in source order *)

Definition case_fork_repository : ToolCase := {|
  schema := ForkRepositorySchema;
  checks := no_checks;
  body args :=
    fork <- call "forkProject" [args.["project_id"]; args.["namespace"]] ;;
    ret (json_content fork) |}.

Definition case_create_branch : ToolCase := {|
  schema := CreateBranchSchema;
  checks := no_checks;
  body args :=
    ref <- (if negb (truthy args.["ref"])
            then call "getDefaultBranchRef" [args.["project_id"]]
            else ret args.["ref"]) ;;
    branch <- call "createBranch"
                [args.["project_id"];
                 JObj [("name", args.["branch"]); ("ref", ref)]] ;;
    ret (json_content branch) |}.

Definition case_search_repositories : ToolCase := {|
  schema := SearchRepositoriesSchema;
  checks := no_checks;
  body args :=
    results <- call "searchProjects"
                 [args.["search"]; args.["page"]; args.["per_page"]] ;;
    ret (json_content results) |}.

Definition case_create_repository : ToolCase := {|
  schema := CreateRepositorySchema;
  checks := no_checks;
  body args :=
    repository <- call "createRepository" [JObj args] ;;
    ret (json_content repository) |}.

Definition case_get_file_contents : ToolCase := {|
  schema := GetFileContentsSchema;
  checks := no_checks;
  body args :=
    contents <- call "getFileContents"
                  [args.["project_id"]; args.["file_path"]; args.["ref"]] ;;
    ret (json_content contents) |}.

Definition case_create_or_update_file : ToolCase := {|
  schema := CreateOrUpdateFileSchema;
  checks := no_checks;
  body args :=
    result <- call "createOrUpdateFile"
                [args.["project_id"]; args.["file_path"]; args.["content"];
                 args.["commit_message"]; args.["branch"];
                 args.["previous_path"]] ;;
    ret (json_content result) |}.

(** The [for (const file of args.files)] loop of [push_files]: one awaited
    [createOrUpdateFile] per file, its result pushed on [results]; the
    [catch] inside the loop logs and rethrows. *)
Definition push_file (args : Obj) (file : Value) : M Value :=
  try_catch
    (path <- member file "path" ;;
     content <- member file "content" ;;
     call "createOrUpdateFile"
       [args.["project_id"]; path; content;
        args.["commit_message"]; args.["branch"]])
    (fun error => throw error).

Fixpoint push_files_loop (args : Obj) (files results : list Value)
  : M (list Value) :=
  match files with
  | [] => ret results
  | file :: files' =>
      result <- push_file args file ;;
      push_files_loop args files' (results ++ [result])
  end.

Definition case_push_files : ToolCase := {|
  schema := PushFilesSchema;
  checks := no_checks;
  body args :=
    files <- iterate args.["files"] ;;
    results <- push_files_loop args files [] ;;
    ret (json_content (JArr results)) |}.

Definition case_create_issue : ToolCase := {|
  schema := CreateIssueSchema;
  checks := no_checks;
  body args :=
    issue <- call "createIssue"
               [args.["project_id"]; JObj (rest args "project_id")] ;;
    ret (json_content issue) |}.

Definition case_create_merge_request : ToolCase := {|
  schema := CreateMergeRequestSchema;
  checks := no_checks;
  body args :=
    mergeRequest <- call "createMergeRequest"
                      [args.["project_id"]; JObj (rest args "project_id")] ;;
    ret (json_content mergeRequest) |}.

Definition case_list_group_projects : ToolCase := {|
  schema := ListGroupProjectsSchema;
  checks := no_checks;
  body args :=
    results <- call "listGroupProjects"
                 [args.["group_id"]; JObj (rest args "group_id")] ;;
    ret (json_content results) |}.

Definition case_get_project_events : ToolCase := {|
  schema := GetProjectEventsSchema;
  checks args := check_per_page args >> check_page args;
  body args :=
    events <- call "getProjectEvents"
                [args.["project_id"]; JObj (rest args "project_id")] ;;
    ret (formatEventsResponse X events) |}.

Definition case_list_commits : ToolCase := {|
  schema := ListCommitsSchema;
  checks args :=
    check_per_page args >>
    check_page args >>
    when (truthy args.["since"] && negb (isValidISODate X args.["since"]))
         "since must be a valid ISO 8601 date (YYYY-MM-DDTHH:MM:SSZ)" >>
    when (truthy args.["until"] && negb (isValidISODate X args.["until"]))
         "until must be a valid ISO 8601 date (YYYY-MM-DDTHH:MM:SSZ)";
  body args :=
    commits <- call "listCommits"
                 [args.["project_id"]; JObj (rest args "project_id")] ;;
    ret (formatCommitsResponse X commits) |}.

Definition case_list_issues : ToolCase := {|
  schema := ListIssuesSchema;
  checks args :=
    check_per_page args >> check_page args >> check_dateFields args;
  body args :=
    issues <- call "listIssues"
                [args.["project_id"]; JObj (rest args "project_id")] ;;
    ret (formatIssuesResponse X issues) |}.

Definition case_list_merge_requests : ToolCase := {|
  schema := ListMergeRequestsSchema;
  checks args :=
    check_per_page args >> check_page args >> check_dateFields args;
  body args :=
    mergeRequests <- call "listMergeRequests"
                       [args.["project_id"]; JObj (rest args "project_id")] ;;
    ret (formatMergeRequestsResponse X mergeRequests) |}.

Definition case_list_project_wiki_pages : ToolCase := {|
  schema := ListProjectWikiPagesSchema;
  checks := no_checks;
  body args :=
    wikiPages <- call "listProjectWikiPages"
                   [args.["project_id"];
                    JObj [("with_content", args.["with_content"])]] ;;
    ret (formatWikiPagesResponse X wikiPages) |}.

Definition case_get_project_wiki_page : ToolCase := {|
  schema := GetProjectWikiPageSchema;
  checks := no_checks;
  body args :=
    wikiPage <- call "getProjectWikiPage"
                  [args.["project_id"]; args.["slug"];
                   JObj [("render_html", args.["render_html"]);
                         ("version", args.["version"])]] ;;
    ret (formatWikiPageResponse X wikiPage) |}.

Definition case_create_project_wiki_page : ToolCase := {|
  schema := CreateProjectWikiPageSchema;
  checks := no_checks;
  body args :=
    wikiPage <- call "createProjectWikiPage"
                  [args.["project_id"];
                   JObj [("title", args.["title"]);
                         ("content", args.["content"]);
                         ("format", args.["format"])]] ;;
    ret (formatWikiPageResponse X wikiPage) |}.

Definition case_edit_project_wiki_page : ToolCase := {|
  schema := EditProjectWikiPageSchema;
  checks := no_checks;
  body args :=
    wikiPage <- call "editProjectWikiPage"
                  [args.["project_id"]; args.["slug"];
                   JObj [("title", args.["title"]);
                         ("content", args.["content"]);
                         ("format", args.["format"])]] ;;
    ret (formatWikiPageResponse X wikiPage) |}.

Definition case_delete_project_wiki_page : ToolCase := {|
  schema := DeleteProjectWikiPageSchema;
  checks := no_checks;
  body args :=
    _ <- call "deleteProjectWikiPage" [args.["project_id"]; args.["slug"]] ;;
    ret (text_content
           (JStr ("Wiki page '" ++ to_string args.["slug"]
                  ++ "' has been deleted."))) |}.

Definition case_upload_project_wiki_attachment : ToolCase := {|
  schema := UploadProjectWikiAttachmentSchema;
  checks := no_checks;
  body args :=
    attachment <- call "uploadProjectWikiAttachment"
                    [args.["project_id"];
                     JObj [("file_path", args.["file_path"]);
                           ("content", args.["content"]);
                           ("branch", args.["branch"])]] ;;
    ret (formatWikiAttachmentResponse X attachment) |}.

Definition case_list_group_wiki_pages : ToolCase := {|
  schema := ListGroupWikiPagesSchema;
  checks := no_checks;
  body args :=
    wikiPages <- call "listGroupWikiPages"
                   [args.["group_id"];
                    JObj [("with_content", args.["with_content"])]] ;;
    ret (formatWikiPagesResponse X wikiPages) |}.

Definition case_get_group_wiki_page : ToolCase := {|
  schema := GetGroupWikiPageSchema;
  checks := no_checks;
  body args :=
    wikiPage <- call "getGroupWikiPage"
                  [args.["group_id"]; args.["slug"];
                   JObj [("render_html", args.["render_html"]);
                         ("version", args.["version"])]] ;;
    ret (formatWikiPageResponse X wikiPage) |}.

Definition case_create_group_wiki_page : ToolCase := {|
  schema := CreateGroupWikiPageSchema;
  checks := no_checks;
  body args :=
    wikiPage <- call "createGroupWikiPage"
                  [args.["group_id"];
                   JObj [("title", args.["title"]);
                         ("content", args.["content"]);
                         ("format", args.["format"])]] ;;
    ret (formatWikiPageResponse X wikiPage) |}.

Definition case_edit_group_wiki_page : ToolCase := {|
  schema := EditGroupWikiPageSchema;
  checks := no_checks;
  body args :=
    wikiPage <- call "editGroupWikiPage"
                  [args.["group_id"]; args.["slug"];
                   JObj [("title", args.["title"]);
                         ("content", args.["content"]);
                         ("format", args.["format"])]] ;;
    ret (formatWikiPageResponse X wikiPage) |}.

Definition case_delete_group_wiki_page : ToolCase := {|
  schema := DeleteGroupWikiPageSchema;
  checks := no_checks;
  body args :=
    _ <- call "deleteGroupWikiPage" [args.["group_id"]; args.["slug"]] ;;
    ret (text_content
           (JStr ("Wiki page '" ++ to_string args.["slug"]
                  ++ "' has been deleted."))) |}.

Definition case_upload_group_wiki_attachment : ToolCase := {|
  schema := UploadGroupWikiAttachmentSchema;
  checks := no_checks;
  body args :=
    attachment <- call "uploadGroupWikiAttachment"
                    [args.["group_id"];
                     JObj [("file_path", args.["file_path"]);
                           ("content", args.["content"]);
                           ("branch", args.["branch"])]] ;;
    ret (formatWikiAttachmentResponse X attachment) |}.

Definition case_list_project_members : ToolCase := {|
  schema := ListProjectMembersSchema;
  checks := no_checks;
  body args :=
    members <- call "listProjectMembers"
                 [args.["project_id"]; JObj (rest args "project_id")] ;;
    ret (formatMembersResponse X members) |}.

Definition case_list_group_members : ToolCase := {|
  schema := ListGroupMembersSchema;
  checks := no_checks;
  body args :=
    members <- call "listGroupMembers"
                 [args.["group_id"]; JObj (rest args "group_id")] ;;
    ret (formatMembersResponse X members) |}.

Definition case_list_issue_notes : ToolCase := {|
  schema := ListIssueNotesSchema;
  checks args := check_per_page args >> check_page args;
  body args :=
    notes <- call "getIssueNotes"
               [args.["project_id"]; args.["issue_iid"];
                JObj [("sort", args.["sort"]);
                      ("order_by", args.["order_by"]);
                      ("page", args.["page"]);
                      ("per_page", args.["per_page"])]] ;;
    ret (formatNotesResponse X notes) |}.

Definition case_list_issue_discussions : ToolCase := {|
  schema := ListIssueDiscussionsSchema;
  checks args := check_per_page args >> check_page args;
  body args :=
    discussions <- call "getIssueDiscussions"
                     [args.["project_id"]; args.["issue_iid"];
                      JObj [("page", args.["page"]);
                            ("per_page", args.["per_page"])]] ;;
    ret (formatDiscussionsResponse X discussions) |}.

Definition case_list_pipelines : ToolCase := {|
  schema := ListPipelinesSchema;
  checks := no_checks;
  body args :=
    pipelines <- call "listPipelines"
                   [args.["project_id"]; JObj (rest args "project_id")] ;;
    ret (json_content pipelines) |}.

Definition case_get_pipeline : ToolCase := {|
  schema := GetPipelineSchema;
  checks := no_checks;
  body args :=
    pipeline <- call "getPipeline"
                  [args.["project_id"]; Number X args.["pipeline_id"]] ;;
    ret (json_content pipeline) |}.

Definition case_get_pipeline_jobs : ToolCase := {|
  schema := GetPipelineJobsSchema;
  checks := no_checks;
  body args :=
    jobs <- call "getPipelineJobs"
              [args.["project_id"]; Number X args.["pipeline_id"];
               args.["scope"]] ;;
    ret (json_content jobs) |}.

Definition case_get_job : ToolCase := {|
  schema := GetJobSchema;
  checks := no_checks;
  body args :=
    job <- call "getJob" [args.["project_id"]; Number X args.["job_id"]] ;;
    ret (json_content job) |}.

Definition case_get_job_log : ToolCase := {|
  schema := GetJobLogSchema;
  checks := no_checks;
  body args :=
    log <- call "getJobLog" [args.["project_id"]; Number X args.["job_id"]] ;;
    ret (text_content log) |}.

Definition case_create_pipeline : ToolCase := {|
  schema := CreatePipelineSchema;
  checks := no_checks;
  body args :=
    pipeline <- call "createPipeline"
                  [args.["project_id"]; args.["ref"];
                   or_else args.["variables"] (JObj [])] ;;
    ret (json_content pipeline) |}.

Definition case_retry_pipeline : ToolCase := {|
  schema := RetryPipelineSchema;
  checks := no_checks;
  body args :=
    pipeline <- call "retryPipeline"
                  [args.["project_id"]; Number X args.["pipeline_id"]] ;;
    ret (json_content pipeline) |}.

Definition case_cancel_pipeline : ToolCase := {|
  schema := CancelPipelineSchema;
  checks := no_checks;
  body args :=
    pipeline <- call "cancelPipeline"
                  [args.["project_id"]; Number X args.["pipeline_id"]] ;;
    ret (json_content pipeline) |}.

Definition case_retry_job : ToolCase := {|
  schema := RetryJobSchema;
  checks := no_checks;
  body args :=
    job <- call "retryJob" [args.["project_id"]; Number X args.["job_id"]] ;;
    ret (json_content job) |}.

Definition case_cancel_job : ToolCase := {|
  schema := CancelJobSchema;
  checks := no_checks;
  body args :=
    job <- call "cancelJob" [args.["project_id"]; Number X args.["job_id"]] ;;
    ret (json_content job) |}.

Definition case_list_projects : ToolCase := {|
  schema := ListProjectsSchema;
  checks := no_checks;
  body args :=
    projects <- call "listProjects" [JObj args] ;;
    ret (json_content projects) |}.

Definition case_get_project : ToolCase := {|
  schema := GetProjectSchema;
  checks := no_checks;
  body args :=
    project <- call "getProject" [args.["project_id"]] ;;
    ret (json_content project) |}.

Definition case_validate_ci_yaml : ToolCase := {|
  schema := ValidateCIYamlSchema;
  checks := no_checks;
  body args :=
    result <- call "validateCIYaml"
                [args.["project_id"]; args.["content"];
                 args.["include_merged_yaml"]] ;;
    ret (json_content result) |}.

Definition case_get_project_runners : ToolCase := {|
  schema := GetProjectRunnersSchema;
  checks := no_checks;
  body args :=
    runners <- call "getProjectRunners"
                 [args.["project_id"]; JObj (rest args "project_id")] ;;
    ret (json_content runners) |}.

Definition case_list_shared_runners : ToolCase := {|
  schema := ListSharedRunnersSchema;
  checks := no_checks;
  body args :=
    runners <- call "listSharedRunners" [JObj args] ;;
    ret (json_content runners) |}.

Definition case_get_runner_details : ToolCase := {|
  schema := GetRunnerDetailsSchema;
  checks := no_checks;
  body args :=
    runner <- call "getRunnerDetails" [args.["runner_id"]] ;;
    ret (json_content runner) |}.

Definition case_enable_project_runner : ToolCase := {|
  schema := EnableProjectRunnerSchema;
  checks := no_checks;
  body args :=
    runner <- call "enable_project_runner"
                [args.["project_id"]; args.["runner_id"]] ;;
    ret (json_content runner) |}.

Definition case_disable_project_runner : ToolCase := {|
  schema := DisableProjectRunnerSchema;
  checks := no_checks;
  body args :=
    _ <- call "disable_project_runner"
           [args.["project_id"]; args.["runner_id"]] ;;
    ret (text_content
           (JStr ("Runner " ++ to_string args.["runner_id"]
                  ++ " has been disabled for project "
                  ++ to_string args.["project_id"]))) |}.

Definition case_register_runner : ToolCase := {|
  schema := RegisterRunnerSchema;
  checks := no_checks;
  body args :=
    runner <- call "register_runner"
                [args.["registration_token"]; args.["description"];
                 args.["tags"]] ;;
    ret (json_content runner) |}.

Definition case_validate_runner_tags : ToolCase := {|
  schema := ValidateRunnerTagsSchema;
  checks := no_checks;
  body args :=
    result <- call "validate_runner_tags"
                [args.["project_id"]; args.["tags"]] ;;
    ret (json_content result) |}.

Definition case_update_runner_settings : ToolCase := {|
  schema := UpdateRunnerSettingsSchema;
  checks := no_checks;
  body args :=
    runner <- call "update_runner_settings"
                [args.["runner_id"]; JObj (rest args "runner_id")] ;;
    ret (json_content runner) |}.

Definition case_get_runner_jobs : ToolCase := {|
  schema := GetRunnerJobsSchema;
  checks := no_checks;
  body args :=
    jobs <- call "get_runner_jobs"
              [args.["runner_id"]; JObj (rest args "runner_id")] ;;
    ret (json_content jobs) |}.

Definition case_runner_health_check : ToolCase := {|
  schema := RunnerHealthCheckSchema;
  checks := no_checks;
  body args :=
    healthStatus <- call "runner_health_check" [args.["runner_id"]] ;;
    ret (json_content healthStatus) |}.

(** The [switch (request.params.name)]: the case whose label is strictly
    equal to the name, if any. *)
Definition cases : list (string * ToolCase) :=
  [
   ("fork_repository", case_fork_repository);
   ("create_branch", case_create_branch);
   ("search_repositories", case_search_repositories);
   ("create_repository", case_create_repository);
   ("get_file_contents", case_get_file_contents);
   ("create_or_update_file", case_create_or_update_file);
   ("push_files", case_push_files);
   ("create_issue", case_create_issue);
   ("create_merge_request", case_create_merge_request);
   ("list_group_projects", case_list_group_projects);
   ("get_project_events", case_get_project_events);
   ("list_commits", case_list_commits);
   ("list_issues", case_list_issues);
   ("list_merge_requests", case_list_merge_requests);
   ("list_project_wiki_pages", case_list_project_wiki_pages);
   ("get_project_wiki_page", case_get_project_wiki_page);
   ("create_project_wiki_page", case_create_project_wiki_page);
   ("edit_project_wiki_page", case_edit_project_wiki_page);
   ("delete_project_wiki_page", case_delete_project_wiki_page);
   ("upload_project_wiki_attachment", case_upload_project_wiki_attachment);
   ("list_group_wiki_pages", case_list_group_wiki_pages);
   ("get_group_wiki_page", case_get_group_wiki_page);
   ("create_group_wiki_page", case_create_group_wiki_page);
   ("edit_group_wiki_page", case_edit_group_wiki_page);
   ("delete_group_wiki_page", case_delete_group_wiki_page);
   ("upload_group_wiki_attachment", case_upload_group_wiki_attachment);
   ("list_project_members", case_list_project_members);
   ("list_group_members", case_list_group_members);
   ("list_issue_notes", case_list_issue_notes);
   ("list_issue_discussions", case_list_issue_discussions);
   ("list_pipelines", case_list_pipelines);
   ("get_pipeline", case_get_pipeline);
   ("get_pipeline_jobs", case_get_pipeline_jobs);
   ("get_job", case_get_job);
   ("get_job_log", case_get_job_log);
   ("create_pipeline", case_create_pipeline);
   ("retry_pipeline", case_retry_pipeline);
   ("cancel_pipeline", case_cancel_pipeline);
   ("retry_job", case_retry_job);
   ("cancel_job", case_cancel_job);
   ("list_projects", case_list_projects);
   ("get_project", case_get_project);
   ("validate_ci_yaml", case_validate_ci_yaml);
   ("get_project_runners", case_get_project_runners);
   ("list_shared_runners", case_list_shared_runners);
   ("get_runner_details", case_get_runner_details);
   ("enable_project_runner", case_enable_project_runner);
   ("disable_project_runner", case_disable_project_runner);
   ("register_runner", case_register_runner);
   ("validate_runner_tags", case_validate_runner_tags);
   ("update_runner_settings", case_update_runner_settings);
   ("get_runner_jobs", case_get_runner_jobs);
   ("runner_health_check", case_runner_health_check)
  ].

Definition switch (n : string) : option ToolCase :=
  option_map snd (find (fun c => fst c =? n) cases).

(** ** The [CallToolRequestSchema] handler *)

(** [schema.parse(v)]: the parsed arguments, or a thrown [ZodError]. *)
Definition parse (s : Schema) (v : Value) : JsError + Obj :=
  match Schema_parse X s v with
  | inl issues => inl (ZodError issues)
  | inr args => inr args
  end.

(** A case block: parse, validate further, then the rest. *)
Definition run_case (c : ToolCase) (arguments : Value) : M Value :=
  args <- lift (parse (schema c) arguments) ;;
  _ <- lift (checks c args) ;;
  body c args.

(** The check that the tool is available in read-only mode:
    [!tool || !tool.readOnly] throws. *)
Definition read_only_check (GITLAB_READ_ONLY_MODE : bool) (n : string)
  : JsError + unit :=
  if GITLAB_READ_ONLY_MODE then
    let tool := find (fun t => name t =? n) ALL_TOOLS in
    when (match tool with
          | None => true
          | Some t => negb (readOnly t)
          end)
         ("Tool '" ++ n ++ "' is not available in read-only mode")
  else inr tt.

(** [e.path.join('.')] *)
Definition seg_string (p : PathSeg) : string :=
  match p with
  | Key k => k
  | Index i => string_of_Z (Z.of_N i)
  end.

(** [`${e.path.join('.')}: ${e.message}`] *)
Definition issue_line (e : ZodIssue) : string :=
  String.concat "." (map seg_string (path e)) ++ ": " ++ message e.

(** The [catch] of the handler: a [ZodError] becomes one [Error] that
    lists its issues, anything else is rethrown. *)
Definition on_error {A} (error : JsError) : M A :=
  match error with
  | ZodError errors =>
      throw (Error ("Invalid arguments: "
                    ++ String.concat ", " (map issue_line errors)))
  | _ => throw error
  end.

(** [request.params] *)
Record CallToolRequest : Type := {
  params_name : string;
  params_arguments : Value
}.

(** The handler registered for [CallToolRequestSchema], under the value of
    the process-wide flag. *)
Definition CallTool (GITLAB_READ_ONLY_MODE : bool) (request : CallToolRequest)
  : M Value :=
  try_catch
    (_ <- lift (when (negb (truthy (params_arguments request)))
                     "Arguments are required") ;;
     _ <- lift (read_only_check GITLAB_READ_ONLY_MODE (params_name request)) ;;
     match switch (params_name request) with
     | Some c => run_case c (params_arguments request)
     | None => throw (Error ("Unknown tool: " ++ params_name request))
     end)
    on_error.

End Gateway.

Arguments Backend : clear implicits.
Arguments M : clear implicits.
Arguments world {X} _.
Arguments calls {X} _.
Arguments schema {X} _.
Arguments checks {X} _ _.
Arguments body {X} _ _ _.

(** ** A calendar date-time validator *)

Module IsoDate.

Definition digit (c : ascii) : option nat :=
  let n := nat_of_ascii c in
  if (48 <=? n)%nat && (n <=? 57)%nat then Some (n - 48)%nat else None.

(** Exactly [k] decimal digits at the head of [s], with the rest. *)
Fixpoint digits (k : nat) (acc : nat) (s : list ascii)
  : option (nat * list ascii) :=
  match k with
  | O => Some (acc, s)
  | S k' =>
      match s with
      | c :: s' =>
          match digit c with
          | Some d => digits k' (10 * acc + d) s'
          | None => None
          end
      | [] => None
      end
  end.

(** The literal character [c] at the head of [s]. *)
Definition lit (c : string) (s : list ascii) : option (list ascii) :=
  match s, list_ascii_of_string c with
  | a :: s', [b] => if Ascii.eqb a b then Some s' else None
  | _, _ => None
  end.

Definition leap (y : nat) : bool :=
  ((y mod 4 =? 0) && negb (y mod 100 =? 0) || (y mod 400 =? 0))%nat.

Definition days_in_month (y m : nat) : nat :=
  match m with
  | 1 | 3 | 5 | 7 | 8 | 10 | 12 => 31
  | 4 | 6 | 9 | 11 => 30
  | 2 => if leap y then 29 else 28
  | _ => 0
  end.

(** [YYYY-MM-DD] naming a day of the calendar. *)
Definition date (s : list ascii) : option (list ascii) :=
  match digits 4 0 s with
  | Some (y, s1) =>
    match lit "-" s1 with
    | Some s2 =>
      match digits 2 0 s2 with
      | Some (m, s3) =>
        match lit "-" s3 with
        | Some s4 =>
          match digits 2 0 s4 with
          | Some (d, s5) =>
              if ((1 <=? d) && (d <=? days_in_month y m))%nat
              then Some s5 else None
          | None => None
          end
        | None => None
        end
      | None => None
      end
    | None => None
    end
  | None => None
  end.

(** [HH:MM] within a day. *)
Definition hour_minute (s : list ascii) : option (list ascii) :=
  match digits 2 0 s with
  | Some (h, s1) =>
    match lit ":" s1 with
    | Some s2 =>
      match digits 2 0 s2 with
      | Some (m, s3) =>
          if ((h <=? 23) && (m <=? 59))%nat then Some s3 else None
      | None => None
      end
    | None => None
    end
  | None => None
  end.

(** An optional fraction of a second: [.] and at least one digit. *)
Fixpoint skip_digits (s : list ascii) : list ascii :=
  match s with
  | c :: s' => match digit c with Some _ => skip_digits s' | None => s end
  | [] => []
  end.

Definition fraction (s : list ascii) : option (list ascii) :=
  match lit "." s with
  | Some (c :: s') =>
      match digit c with
      | Some _ => Some (skip_digits s')
      | None => None
      end
  | Some [] => None
  | None => Some s
  end.

(** The offset: absent (implied UTC), [Z], or [+HH:MM] / [-HH:MM]; nothing
    may follow it. *)
Definition offset (s : list ascii) : bool :=
  match s with
  | [] => true
  | _ =>
    match lit "Z" s with
    | Some [] => true
    | Some _ => false
    | None =>
      match (match lit "+" s with Some r => Some r | None => lit "-" s end) with
      | Some r =>
          match hour_minute r with
          | Some [] => true
          | _ => false
          end
      | None => false
      end
    end
  end.

(** [THH:MM:SS], an optional fraction, then the offset. *)
Definition time (s : list ascii) : bool :=
  match lit "T" s with
  | Some s1 =>
    match hour_minute s1 with
    | Some s2 =>
      match lit ":" s2 with
      | Some s3 =>
        match digits 2 0 s3 with
        | Some (sec, s4) =>
            if (sec <=? 59)%nat then
              match fraction s4 with
              | Some s5 => offset s5
              | None => false
              end
            else false
        | None => false
        end
      | None => false
      end
    | None => false
    end
  | None => false
  end.

(** Modelled from the spec: [isValidISODate] of [utils.ts], which is not
    among the sources.  A value passes when it is a string that reads as a
    calendar date-time: year-month-day, an optional time of day, and an
    explicit or implied UTC offset. *)
Definition isValidISODate_spec (v : Value) : bool :=
  match v with
  | JStr s =>
      match date (list_ascii_of_string s) with
      | Some [] => true
      | Some r => time r
      | None => false
      end
  | _ => false
  end.

End IsoDate.

(** ** A sample environment, to run the handlers on concrete requests *)

Module Sample.

(** The instance behind the client: the paths written so far. *)
Definition Written : Type := list Value.

(** A client on which writing [locked.txt] is refused and everything else
    succeeds. *)
Definition client (c : ApiCall) (w : Written)
  : (JsError + Value) * Written :=
  if method c =? "createOrUpdateFile" then
    match params c with
    | _ :: path :: _ =>
        if to_string path =? "locked.txt"
        then (inl (Error "403 Forbidden"), w)
        else (inr (JObj [("file_path", path)]), w ++ [path])
    | _ => (inl (Error "400 Bad Request"), w)
    end
  else (inr (JArr []), w).

(** The fields a sample schema requires. *)
Definition required (s : Schema) : list string :=
  match s with
  | CreateIssueSchema => ["project_id"; "title"]
  | PushFilesSchema => ["project_id"; "branch"; "files"; "commit_message"]
  | ListCommitsSchema | ListIssuesSchema | ListMergeRequestsSchema
  | GetProjectEventsSchema => ["project_id"]
  | ListIssueNotesSchema | ListIssueDiscussionsSchema =>
      ["project_id"; "issue_iid"]
  | _ => []
  end.

(** A structural check that reports every missing field. *)
Definition parse_required (s : Schema) (v : Value) : list ZodIssue + Obj :=
  match v with
  | JObj o =>
      match filter (fun k => negb (truthy o.[k] || is_string o.[k]))
                   (required s) with
      | [] => inr o
      | missing =>
          inl (map (fun k => {| path := [Key k]; message := "Required" |})
                   missing)
      end
  | _ => inl [{| path := []; message := "Expected object" |}]
  end.

Definition X : Collaborators := {|
  World := Written;
  gitlabApi := client;
  Schema_parse := parse_required;
  zodToJsonSchema := fun _ =>
    [("properties",
      JObj [("project_id", JObj [("type", JStr "string")])])];
  isValidISODate := IsoDate.isValidISODate_spec;
  Number := fun v => match v with JNum n => JNum n | _ => JNaN end;
  JSON_stringify := fun v => JStr (to_string v);
  formatEventsResponse := fun v => v;
  formatCommitsResponse := fun v => v;
  formatIssuesResponse := fun v => v;
  formatMergeRequestsResponse := fun v => v;
  formatWikiPagesResponse := fun v => v;
  formatWikiPageResponse := fun v => v;
  formatWikiAttachmentResponse := fun v => v;
  formatMembersResponse := fun v => v;
  formatNotesResponse := fun v => v;
  formatDiscussionsResponse := fun v => v
|}.

(** A fresh instance on which nothing has been called. *)
Definition st0 : Backend X := Build_Backend X [] [].

Definition request (n : string) (arguments : Value) : CallToolRequest :=
  {| params_name := n; params_arguments := arguments |}.

(** The catalog entry of [create_issue]. *)
Definition create_issue_tool : Tool :=
  tool X "create_issue" "Create a new issue in a GitLab project"
    CreateIssueSchema false.

(** Files to push, and the arguments of a [push_files] that pushes them. *)
Definition file_a : Obj := [("path", JStr "a.txt"); ("content", JStr "A")].
Definition file_locked : Obj :=
  [("path", JStr "locked.txt"); ("content", JStr "B")].
Definition file_c : Obj := [("path", JStr "c.txt"); ("content", JStr "C")].

(** The arguments of a [create_or_update_file] that writes [locked.txt]. *)
Definition locked_write : Obj :=
  [("project_id", JStr "123"); ("file_path", JStr "locked.txt");
   ("content", JStr "B"); ("commit_message", JStr "Update");
   ("branch", JStr "main")].

(** Arguments of [list_commits] with everything wrong at once, and with
    only [page] and [since] wrong. *)
Definition all_wrong : Obj :=
  [("project_id", JStr "123"); ("per_page", JNum 101); ("page", JNum (-1));
   ("since", JStr "not-a-date")].

Definition page_and_since_wrong : Obj :=
  [("project_id", JStr "123"); ("page", JNum (-1));
   ("since", JStr "not-a-date")].

(** Arguments of [list_issues] whose second date is not one. *)
Definition second_date_wrong : Obj :=
  [("project_id", JStr "123"); ("created_after", JStr "2024-01-15");
   ("created_before", JStr "yesterday"); ("updated_after", JStr "later")].

(** Arguments of [create_branch], without and with a [ref]. *)
Definition branch_args : Obj :=
  [("project_id", JStr "123"); ("branch", JStr "feature")].

Definition branch_args_ref : Obj :=
  [("project_id", JStr "123"); ("branch", JStr "feature");
   ("ref", JStr "main")].

Definition push_args (files : list Obj) : Obj :=
  [("project_id", JStr "123"); ("branch", JStr "main");
   ("commit_message", JStr "Add files"); ("files", JArr (map JObj files))].

End Sample.

(** ** Vocabulary of the statements *)

Notation "a >> b" := (and_then a b) (at level 62, right associativity).

(** No name occurs twice. *)
Fixpoint distinct (l : list string) : bool :=
  match l with
  | [] => true
  | x :: l' => negb (existsb (String.eqb x) l') && distinct l'
  end.

(** Every name of [l1] occurs in [l2]. *)
Definition subset (l1 l2 : list string) : bool :=
  forallb (fun x => existsb (String.eqb x) l2) l1.

(** [l1] is [l2] with some elements left out, the others in their order. *)
Inductive Subseq {A} : list A -> list A -> Prop :=
| Subseq_nil : Subseq [] []
| Subseq_skip x l1 l2 : Subseq l1 l2 -> Subseq l1 (x :: l2)
| Subseq_keep x l1 l2 : Subseq l1 l2 -> Subseq (x :: l1) (x :: l2).

(** The error that leaves the handler when [error] reaches its [catch]. *)
Definition rethrown (error : JsError) : JsError :=
  match error with
  | ZodError errors =>
      Error ("Invalid arguments: "
             ++ String.concat ", " (map issue_line errors))
  | _ => error
  end.

(** Both validation stages pass on the arguments of a request: its name has
    a case, the schema of the case parses the arguments, and the additional
    checks of the case accept the parsed arguments. *)
Definition validated (X : Collaborators) (request : CallToolRequest) : Prop :=
  exists c args,
    switch X (params_name request) = Some c
    /\ Schema_parse X (schema c) (params_arguments request) = inr args
    /\ checks c args = inr tt.

(** The call [push_files] issues for one file of its list. *)
Definition file_call (args file : Obj) : ApiCall :=
  {| method := "createOrUpdateFile";
     params := [args.["project_id"]; file.["path"]; file.["content"];
                args.["commit_message"]; args.["branch"]] |}.

(** Running calls one after the other on the instance, as long as each
    succeeds: the results and the instance they leave. *)
Fixpoint commit_all (X : Collaborators) (cs : list ApiCall) (w : World X)
  : option (list Value * World X) :=
  match cs with
  | [] => Some ([], w)
  | c :: cs' =>
      match gitlabApi X c w with
      | (inr r, w') =>
          match commit_all X cs' w' with
          | Some (rs, w'') => Some (r :: rs, w'')
          | None => None
          end
      | (inl _, _) => None
      end
  end.

(** The state after [cs] were issued from [st] and left the instance [w]. *)
Definition after (X : Collaborators) (st : Backend X) (cs : list ApiCall)
  (w : World X) : Backend X :=
  Build_Backend X w (calls st ++ cs).

(** The six cases that validate pagination fields. *)
Definition paginated_cases (X : Collaborators) : list (ToolCase X) :=
  [case_get_project_events X; case_list_commits X; case_list_issues X;
   case_list_merge_requests X; case_list_issue_notes X;
   case_list_issue_discussions X].

(** What an invocation gives when its validation passes and the rest of its
    case is the single call [c] whose result [format] shapes. *)
Definition single_call (X : Collaborators) (c : ApiCall)
  (format : Value -> Value) (st : Backend X)
  : (JsError + Value) * Backend X :=
  let (r, w) := gitlabApi X c (world st) in
  (match r with
   | inl e => inl (rethrown e)
   | inr v => inr (format v)
   end,
   after X st [c] w).

(** The names a listing shows: [listing.tools.map(d => d.name)]. *)
Definition listed_names (listing : Value) : list Value :=
  match listing with
  | JObj o =>
      match o.["tools"] with
      | JArr ds =>
          map (fun d => match d with
                        | JObj p => p.["name"]
                        | _ => JUndefined
                        end) ds
      | _ => []
      end
  | _ => []
  end.

(** The ten formatters of [formatters.ts], each applied to [v]. *)
Definition formatted (X : Collaborators) (v : Value) : list Value :=
  [formatEventsResponse X v; formatCommitsResponse X v;
   formatIssuesResponse X v; formatMergeRequestsResponse X v;
   formatWikiPagesResponse X v; formatWikiPageResponse X v;
   formatWikiAttachmentResponse X v; formatMembersResponse X v;
   formatNotesResponse X v; formatDiscussionsResponse X v].

(** The names of the six tools that validate pagination fields. *)
Definition paginated_names : list string :=
  ["get_project_events"; "list_commits"; "list_issues";
   "list_merge_requests"; "list_issue_notes"; "list_issue_discussions"].

(** The cases that split their arguments with
    [const { project_id, ...options } = args]. *)
Definition project_options_cases (X : Collaborators) : list (ToolCase X) :=
  [case_create_issue X; case_create_merge_request X;
   case_get_project_events X; case_list_commits X; case_list_issues X;
   case_list_merge_requests X; case_list_project_members X;
   case_list_pipelines X; case_get_project_runners X].

(** * Properties *)

(** ** Strings *)

Section StringFacts.

Local Open Scope string_scope.

Lemma append_assoc (a b c : string) : (a ++ b) ++ c = a ++ (b ++ c).
Proof. induction a as [|x a IH]; simpl; [reflexivity | now rewrite IH]. Qed.

Lemma append_empty_r (a : string) : a ++ "" = a.
Proof. induction a as [|x a IH]; simpl; [reflexivity | now rewrite IH]. Qed.

Lemma prefix_append (a b : string) : prefix a (a ++ b) = true.
Proof.
  induction a as [|x a IH]; simpl.
  - destruct b; reflexivity.
  - destruct (ascii_dec x x) as [_|n]; [exact IH | now elim n].
Qed.

Lemma prefix_split (a s : string) :
  prefix a s = true -> exists q, s = a ++ q.
Proof.
  revert s; induction a as [|x a IH]; intros s H.
  - exists s; reflexivity.
  - destruct s as [|y s]; simpl in H; [discriminate|].
    destruct (ascii_dec x y) as [->|]; [|discriminate].
    destruct (IH _ H) as [q ->]. exists q; reflexivity.
Qed.

(** [includes] finds exactly the substrings. *)
Lemma includes_unfold (s x : string) :
  includes s x
  = prefix x s
    || match s with
       | EmptyString => false
       | String _ s' => includes s' x
       end.
Proof. destruct s; reflexivity. Qed.

Lemma includes_prefix (s x : string) :
  prefix x s = true -> includes s x = true.
Proof. intros H. rewrite includes_unfold, H. reflexivity. Qed.

Lemma includes_intro (p x q : string) : includes (p ++ x ++ q) x = true.
Proof.
  induction p as [|c p IH].
  - change ("" ++ x ++ q) with (x ++ q).
    apply includes_prefix, prefix_append.
  - change (String c p ++ x ++ q) with (String c (p ++ x ++ q)).
    rewrite includes_unfold, IH. apply orb_true_r.
Qed.

Lemma includes_elim (s x : string) :
  includes s x = true -> exists p q, s = p ++ x ++ q.
Proof.
  induction s as [|c s IH]; intros H; rewrite includes_unfold in H;
    apply orb_true_iff in H as [H|H].
  - destruct (prefix_split _ _ H) as [q ->]. exists "", q; reflexivity.
  - discriminate.
  - destruct (prefix_split _ _ H) as [q ->]. exists "", q; reflexivity.
  - destruct (IH H) as (p & q & ->). exists (String c p), q; reflexivity.
Qed.

Lemma includes_append_l (a b x : string) :
  includes a x = true -> includes (a ++ b) x = true.
Proof.
  intros H. destruct (includes_elim _ _ H) as (p & q & ->).
  rewrite !append_assoc. apply includes_intro.
Qed.

Lemma includes_append_r (a b x : string) :
  includes b x = true -> includes (a ++ b) x = true.
Proof.
  intros H. destruct (includes_elim _ _ H) as (p & q & ->).
  rewrite <- append_assoc. apply includes_intro.
Qed.

Lemma includes_refl (x : string) : includes x x = true.
Proof.
  rewrite <- (append_empty_r x) at 1. apply (includes_intro "" x "").
Qed.

(** Every element of a joined list is a substring of the result. *)
Lemma includes_concat (sep : string) (l : list string) (x : string) :
  In x l -> includes (String.concat sep l) x = true.
Proof.
  induction l as [|h t IH]; intros Hin; [destruct Hin|].
  destruct Hin as [->|Hin].
  - destruct t; simpl; [apply includes_refl|].
    apply includes_append_l, includes_refl.
  - destruct t as [|h' t']; [destruct Hin|].
    change (String.concat sep (h :: h' :: t'))
      with (h ++ sep ++ String.concat sep (h' :: t')).
    apply includes_append_r, includes_append_r, IH, Hin.
Qed.

End StringFacts.

(** ** Lists of names *)

Section NameFacts.

Lemma existsb_eqb_In (x : string) (l : list string) :
  existsb (String.eqb x) l = true <-> In x l.
Proof.
  rewrite existsb_exists. split.
  - intros (y & Hy & E). apply String.eqb_eq in E. now subst.
  - intros H. exists x. split; [exact H | apply String.eqb_refl].
Qed.

Lemma distinct_NoDup (l : list string) : distinct l = true -> NoDup l.
Proof.
  induction l as [|x l IH]; simpl; intros H; constructor;
    apply andb_true_iff in H as [H1 H2].
  - intros Hin. apply existsb_eqb_In in Hin. rewrite Hin in H1. discriminate.
  - exact (IH H2).
Qed.

Lemma subset_incl (l1 l2 : list string) :
  subset l1 l2 = true -> forall x, In x l1 -> In x l2.
Proof.
  unfold subset. rewrite forallb_forall. intros H x Hx.
  apply existsb_eqb_In, H, Hx.
Qed.

(** In a list whose keys are distinct, looking a member's key up finds that
    member. *)
Lemma find_by_key {A} (key : A -> string) (l : list A) (a : A) :
  NoDup (map key l) -> In a l ->
  find (fun b => key b =? key a) l = Some a.
Proof.
  induction l as [|b l IH]; simpl; intros Hnd Hin; [destruct Hin|].
  inversion Hnd as [|? ? Hnotin Hnd']; subst.
  destruct Hin as [->|Hin].
  - now rewrite String.eqb_refl.
  - destruct (String.eqb_spec (key b) (key a)) as [E|_].
    + elim Hnotin. rewrite E. now apply in_map.
    + now apply IH.
Qed.

(** A lookup fails exactly when the key is not in the list. *)
Lemma find_key_None {A} (key : A -> string) (l : list A) (n : string) :
  find (fun b => key b =? n) l = None <-> ~ In n (map key l).
Proof.
  induction l as [|b l IH]; simpl.
  - split; [intros _ [] | reflexivity].
  - destruct (String.eqb_spec (key b) n) as [E|NE].
    + split; [discriminate | intros H; elim H; now left].
    + rewrite IH. split.
      * intros H [E|Hin]; [now elim NE | now elim H].
      * intros H Hin. apply H. now right.
Qed.

End NameFacts.

(** ** The catalog and the [switch] *)

Section CatalogFacts.

Variable X : Collaborators.

Lemma catalog_names_distinct : NoDup (map name (ALL_TOOLS X)).
Proof. apply distinct_NoDup. vm_compute. reflexivity. Qed.

(** Looking a catalog entry's name up in the catalog finds that entry. *)
Lemma find_tool (t : Tool) :
  In t (ALL_TOOLS X) ->
  find (fun t' => name t' =? name t) (ALL_TOOLS X) = Some t.
Proof. apply find_by_key, catalog_names_distinct. Qed.

(** The labels of the [switch] are the names of the catalog. *)
Lemma case_labels_catalog (n : string) :
  In n (map fst (cases X)) <-> In n (map name (ALL_TOOLS X)).
Proof.
  split; apply subset_incl; vm_compute; reflexivity.
Qed.

Lemma switch_None (n : string) :
  switch X n = None <-> find (fun t => name t =? n) (ALL_TOOLS X) = None.
Proof.
  unfold switch. rewrite find_key_None, <- case_labels_catalog.
  rewrite <- (find_key_None fst).
  destruct (find _ (cases X)); simpl; split; congruence.
Qed.

End CatalogFacts.

(** ** Equations of the handler *)

Section HandlerFacts.

Variable X : Collaborators.
Variable GITLAB_READ_ONLY_MODE : bool.

Lemma on_error_rethrown {A} (e : JsError) (st : Backend X) :
  @on_error X A e st = (inl (rethrown e), st).
Proof. destruct e; reflexivity. Qed.

Lemma CallTool_absent (n : string) (arguments : Value) (st : Backend X) :
  truthy arguments = false ->
  CallTool X GITLAB_READ_ONLY_MODE
    {| params_name := n; params_arguments := arguments |} st
  = (inl (Error "Arguments are required"), st).
Proof.
  intros H. unfold CallTool, try_catch, bind, lift, when. simpl.
  rewrite H. reflexivity.
Qed.

Lemma CallTool_denied (n : string) (arguments : Value) (st : Backend X)
  (m : string) :
  truthy arguments = true ->
  read_only_check X GITLAB_READ_ONLY_MODE n = inl (Error m) ->
  CallTool X GITLAB_READ_ONLY_MODE
    {| params_name := n; params_arguments := arguments |} st
  = (inl (Error m), st).
Proof.
  intros H G. unfold CallTool, try_catch, bind, lift, when. simpl.
  rewrite H, G. reflexivity.
Qed.

Lemma CallTool_allowed (n : string) (arguments : Value) (st : Backend X) :
  truthy arguments = true ->
  read_only_check X GITLAB_READ_ONLY_MODE n = inr tt ->
  CallTool X GITLAB_READ_ONLY_MODE
    {| params_name := n; params_arguments := arguments |} st
  = match switch X n with
    | Some c => try_catch X (run_case X c arguments) (on_error X) st
    | None => (inl (Error ("Unknown tool: " ++ n)), st)
    end.
Proof.
  intros H G. unfold CallTool, try_catch, bind, lift, when. simpl.
  rewrite H, G. simpl. destruct (switch X n); reflexivity.
Qed.

Lemma run_case_invalid (c : ToolCase X) (arguments : Value)
  (issues : list ZodIssue) (st : Backend X) :
  Schema_parse X (schema c) arguments = inl issues ->
  try_catch X (run_case X c arguments) (on_error X) st
  = (inl (rethrown (ZodError issues)), st).
Proof.
  intros H. unfold try_catch, run_case, bind, lift, parse.
  rewrite H. reflexivity.
Qed.

Lemma run_case_rejected (c : ToolCase X) (arguments : Value) (args : Obj)
  (e : JsError) (st : Backend X) :
  Schema_parse X (schema c) arguments = inr args ->
  checks c args = inl e ->
  try_catch X (run_case X c arguments) (on_error X) st
  = (inl (rethrown e), st).
Proof.
  intros H G. unfold try_catch, run_case, bind, lift, parse.
  rewrite H. simpl. rewrite G. simpl. apply on_error_rethrown.
Qed.

Lemma run_case_valid (c : ToolCase X) (arguments : Value) (args : Obj)
  (st : Backend X) :
  Schema_parse X (schema c) arguments = inr args ->
  checks c args = inr tt ->
  try_catch X (run_case X c arguments) (on_error X) st
  = try_catch X (body c args) (on_error X) st.
Proof.
  intros H G. unfold try_catch, run_case, bind, lift, parse.
  rewrite H. simpl. rewrite G. reflexivity.
Qed.

End HandlerFacts.

(** ** The read-only gate and the presence of arguments *)

Section AccessControl.

Local Open Scope string_scope.

(** C10.  An invocation whose arguments are absent ([undefined] or [null])
    fails with "Arguments are required" and leaves the backend untouched,
    whatever the name of the operation (in the catalog or not) and whatever
    the mode: the check precedes the catalog lookup, the read-only check
    and the dispatch. *)
Theorem C10_absent_arguments_rejected_first
  (X : Collaborators) (GITLAB_READ_ONLY_MODE : bool) (n : string)
  (st : Backend X) :
  CallTool X GITLAB_READ_ONLY_MODE
    {| params_name := n; params_arguments := JUndefined |} st
  = (inl (Error "Arguments are required"), st)
  /\ CallTool X GITLAB_READ_ONLY_MODE
       {| params_name := n; params_arguments := JNull |} st
     = (inl (Error "Arguments are required"), st).
Proof. split; apply CallTool_absent; reflexivity. Qed.

(** The read-only check refuses every name that is not a read-only entry of
    the catalog, with one message. *)
Lemma read_only_check_refuses (X : Collaborators) (n : string) :
  (forall t, find (fun t' => name t' =? n) (ALL_TOOLS X) = Some t ->
             readOnly t = false) ->
  read_only_check X true n
  = inl (Error ("Tool '" ++ n ++ "' is not available in read-only mode")).
Proof.
  intros H. unfold read_only_check.
  destruct (find _ (ALL_TOOLS X)) as [t|]; [|reflexivity].
  rewrite (H t eq_refl). reflexivity.
Qed.

Lemma read_only_check_off (X : Collaborators) (n : string) :
  read_only_check X false n = inr tt.
Proof. reflexivity. Qed.

(** C1, as the code has it.  In read-only mode, invoking a catalog entry
    with [readOnly == false] fails and leaves the backend untouched: with
    "Tool 'X' is not available in read-only mode" when an arguments object
    is supplied, whatever it holds, and with "Arguments are required" when
    it is absent. *)
Theorem C1_mutating_tool_denied_in_read_only_mode
  (X : Collaborators) (t : Tool) (arguments : Value) (st : Backend X) :
  In t (ALL_TOOLS X) ->
  readOnly t = false ->
  CallTool X true
    {| params_name := name t; params_arguments := arguments |} st
  = (inl (Error (if truthy arguments
                 then "Tool '" ++ name t
                      ++ "' is not available in read-only mode"
                 else "Arguments are required")), st)
  /\ includes ("Tool '" ++ name t ++ "' is not available in read-only mode")
              "not available in read-only mode" = true.
Proof.
  intros Hin Hro. split.
  - destruct (truthy arguments) eqn:Ha.
    + apply (CallTool_denied X true _ _ _ _ Ha).
      apply read_only_check_refuses. intros t' Hfind.
      rewrite (find_tool X t Hin) in Hfind. now inversion Hfind; subst.
    + now apply CallTool_absent.
  - apply includes_append_r, includes_append_r. reflexivity.
Qed.

(** C4, as the code has it.  In read-only mode, with an arguments object
    supplied, a name that is not in the catalog and a catalog name with
    [readOnly == false] fail with the same message, "Tool 'X' is not
    available in read-only mode"; outside read-only mode a name that is
    not in the catalog fails with "Unknown tool: X".  Neither touches the
    backend. *)
Theorem C4_denial_and_unknown_messages
  (X : Collaborators) (n : string) (arguments : Value) (st : Backend X) :
  truthy arguments = true ->
  ((forall t, find (fun t' => name t' =? n) (ALL_TOOLS X) = Some t ->
              readOnly t = false) ->
   CallTool X true {| params_name := n; params_arguments := arguments |} st
   = (inl (Error ("Tool '" ++ n ++ "' is not available in read-only mode")),
      st))
  /\ (find (fun t' => name t' =? n) (ALL_TOOLS X) = None ->
      CallTool X false {| params_name := n; params_arguments := arguments |} st
      = (inl (Error ("Unknown tool: " ++ n)), st)).
Proof.
  intros Ha. split.
  - intros H. apply (CallTool_denied X true _ _ _ _ Ha).
    now apply read_only_check_refuses.
  - intros H. rewrite (CallTool_allowed X false _ _ _ Ha eq_refl).
    apply switch_None in H. rewrite H. reflexivity.
Qed.

Lemma C1_mutating_tool_denied_witness :
  CallTool Sample.X true
    (Sample.request "create_issue"
       (JObj [("project_id", JStr "123"); ("title", JStr "Bug")]))
    Sample.st0
  = (inl (Error "Tool 'create_issue' is not available in read-only mode"),
     Sample.st0)
  /\ includes "Tool 'create_issue' is not available in read-only mode"
              "not available in read-only mode" = true.
Proof.
  apply (C1_mutating_tool_denied_in_read_only_mode Sample.X
           Sample.create_issue_tool
           (JObj [("project_id", JStr "123"); ("title", JStr "Bug")])
           Sample.st0).
  - do 5 right. left. reflexivity.
  - reflexivity.
Defined.

(** C1 as stated fails when the arguments are absent: [create_issue] is a
    catalog entry with [readOnly == false], and in read-only mode its
    invocation without arguments fails with "Arguments are required", a
    message that does not contain "not available in read-only mode". *)
Lemma C1_absent_arguments_counterexample :
  In Sample.create_issue_tool (ALL_TOOLS Sample.X)
  /\ readOnly Sample.create_issue_tool = false
  /\ CallTool Sample.X true (Sample.request "create_issue" JUndefined)
       Sample.st0
     = (inl (Error "Arguments are required"), Sample.st0)
  /\ ~ (exists m,
          CallTool Sample.X true (Sample.request "create_issue" JUndefined)
            Sample.st0
          = (inl (Error m), Sample.st0)
          /\ includes m "not available in read-only mode" = true).
Proof.
  split; [do 5 right; left; reflexivity|].
  split; [reflexivity|].
  split; [reflexivity|].
  intros (m & Hrun & Hm).
  change (CallTool Sample.X true (Sample.request "create_issue" JUndefined)
            Sample.st0)
    with (@inl JsError Value (Error "Arguments are required"), Sample.st0)
    in Hrun.
  inversion Hrun; subst m. discriminate Hm.
Qed.

Lemma C4_denial_and_unknown_messages_witness :
  CallTool Sample.X true (Sample.request "no_such_tool" (JObj [])) Sample.st0
  = (inl (Error "Tool 'no_such_tool' is not available in read-only mode"),
     Sample.st0)
  /\ CallTool Sample.X true
       (Sample.request "create_issue" (JObj [])) Sample.st0
     = (inl (Error "Tool 'create_issue' is not available in read-only mode"),
        Sample.st0)
  /\ CallTool Sample.X false (Sample.request "no_such_tool" (JObj []))
       Sample.st0
     = (inl (Error "Unknown tool: no_such_tool"), Sample.st0).
Proof.
  split; [|split].
  - apply (proj1 (C4_denial_and_unknown_messages Sample.X "no_such_tool"
                    (JObj []) Sample.st0 eq_refl)).
    intros t H. vm_compute in H. discriminate H.
  - apply (proj1 (C4_denial_and_unknown_messages Sample.X "create_issue"
                    (JObj []) Sample.st0 eq_refl)).
    intros t H. vm_compute in H. inversion H. reflexivity.
  - apply (proj2 (C4_denial_and_unknown_messages Sample.X "no_such_tool"
                    (JObj []) Sample.st0 eq_refl)).
    reflexivity.
Defined.

(** C4 as stated fails on a name that is not in the catalog: in read-only
    mode its invocation does not fail with "Unknown tool: X" but with the
    message of an ineligible tool. *)
Lemma C4_unknown_name_counterexample :
  find (fun t => name t =? "no_such_tool") (ALL_TOOLS Sample.X) = None
  /\ CallTool Sample.X true (Sample.request "no_such_tool" (JObj []))
       Sample.st0
     = (inl (Error "Tool 'no_such_tool' is not available in read-only mode"),
        Sample.st0)
  /\ fst (CallTool Sample.X true (Sample.request "no_such_tool" (JObj []))
            Sample.st0)
     <> inl (Error "Unknown tool: no_such_tool").
Proof.
  split; [reflexivity|]. split; [reflexivity|].
  vm_compute. discriminate.
Qed.

End AccessControl.

(** ** Listing *)

Section Listing.

Lemma Subseq_filter {A} (f : A -> bool) (l : list A) : Subseq (filter f l) l.
Proof.
  induction l as [|x l IH]; simpl; [constructor|].
  destruct (f x); now constructor.
Qed.

Lemma Subseq_refl {A} (l : list A) : Subseq l l.
Proof. induction l; now constructor. Qed.

(** C7.  In read-only mode the listing shows the descriptors of exactly the
    catalog entries with [readOnly == true], otherwise those of the whole
    catalog; in both modes they come in catalog order. *)
Theorem C7_listing_by_mode (X : Collaborators) :
  (exists shown,
      ListTools X true = JObj [("tools", JArr (map descriptor shown))]
      /\ (forall t, In t shown <-> In t (ALL_TOOLS X) /\ readOnly t = true)
      /\ Subseq shown (ALL_TOOLS X))
  /\ (exists shown,
         ListTools X false = JObj [("tools", JArr (map descriptor shown))]
         /\ shown = ALL_TOOLS X
         /\ Subseq shown (ALL_TOOLS X)).
Proof.
  split.
  - exists (filter readOnly (ALL_TOOLS X)). split; [reflexivity|]. split.
    + intros t. apply filter_In.
    + apply Subseq_filter.
  - exists (ALL_TOOLS X). split; [reflexivity|]. split; [reflexivity|].
    apply Subseq_refl.
Qed.

(** The names the two listings show. *)
Example listing_names_read_only :
  map name (filter readOnly (ALL_TOOLS Sample.X))
  = ["search_repositories"; "get_file_contents"; "list_group_projects";
     "get_project_events"; "list_commits"; "list_issues";
     "list_merge_requests"; "list_project_wiki_pages";
     "get_project_wiki_page"; "list_group_wiki_pages"; "get_group_wiki_page";
     "list_project_members"; "list_group_members"; "list_issue_notes";
     "list_issue_discussions"; "list_pipelines"; "get_pipeline";
     "get_pipeline_jobs"; "get_job"; "get_job_log"; "list_projects";
     "get_project"; "validate_ci_yaml"; "get_project_runners";
     "list_shared_runners"; "get_runner_details"; "validate_runner_tags";
     "get_runner_jobs"; "runner_health_check"].
Proof. reflexivity. Qed.

End Listing.

(** ** Validation *)

Section Validation.

Local Open Scope string_scope.

(** The stages of the handler, in the order it goes through them: only the
    last line runs the rest of a case, where the backend is called. *)
Lemma CallTool_stages (X : Collaborators) (GITLAB_READ_ONLY_MODE : bool)
  (request : CallToolRequest) (st : Backend X) :
  CallTool X GITLAB_READ_ONLY_MODE request st
  = if negb (truthy (params_arguments request)) then
      (inl (Error "Arguments are required"), st)
    else
      match read_only_check X GITLAB_READ_ONLY_MODE (params_name request) with
      | inl e => (inl (rethrown e), st)
      | inr _ =>
        match switch X (params_name request) with
        | None => (inl (Error ("Unknown tool: " ++ params_name request)), st)
        | Some c =>
          match Schema_parse X (schema c) (params_arguments request) with
          | inl issues => (inl (rethrown (ZodError issues)), st)
          | inr args =>
            match checks c args with
            | inl e => (inl (rethrown e), st)
            | inr _ => try_catch X (body c args) (on_error X) st
            end
          end
        end
      end.
Proof.
  unfold CallTool, try_catch, bind, lift, when, run_case, parse.
  destruct (truthy (params_arguments request)); simpl; [|reflexivity].
  destruct (read_only_check X GITLAB_READ_ONLY_MODE (params_name request))
    as [e|[]]; simpl; [apply on_error_rethrown|].
  destruct (switch X (params_name request)) as [c|]; simpl; [|reflexivity].
  unfold bind, lift.
  destruct (Schema_parse X (schema c) (params_arguments request))
    as [issues|args]; simpl; [reflexivity|].
  destruct (checks c args) as [e|[]]; simpl;
    [apply on_error_rethrown | reflexivity].
Qed.

(** C5.  Structural validation and then the additional checks are done
    with before the backend is reached: an invocation whose arguments the
    schema rejects, or whose parsed arguments a check rejects, leaves the
    backend as it was, with no call issued; and an invocation that changed
    the backend or issued a call had passed both stages. *)
Theorem C5_validation_precedes_backend
  (X : Collaborators) (GITLAB_READ_ONLY_MODE : bool)
  (request : CallToolRequest) (st : Backend X) :
  (forall c issues,
      switch X (params_name request) = Some c ->
      Schema_parse X (schema c) (params_arguments request) = inl issues ->
      snd (CallTool X GITLAB_READ_ONLY_MODE request st) = st)
  /\ (forall c args e,
         switch X (params_name request) = Some c ->
         Schema_parse X (schema c) (params_arguments request) = inr args ->
         checks c args = inl e ->
         snd (CallTool X GITLAB_READ_ONLY_MODE request st) = st)
  /\ (snd (CallTool X GITLAB_READ_ONLY_MODE request st) <> st ->
      validated X request).
Proof.
  rewrite CallTool_stages. repeat split.
  - intros c issues Hc Hp. rewrite Hc, Hp.
    destruct (negb _); [reflexivity|]. now destruct (read_only_check _ _ _).
  - intros c args e Hc Hp He. rewrite Hc, Hp, He.
    destruct (negb _); [reflexivity|]. now destruct (read_only_check _ _ _).
  - intros Hst. unfold validated.
    destruct (negb _); [now elim Hst|].
    destruct (read_only_check _ _ _); [now elim Hst|].
    destruct (switch X (params_name request)) as [c|]; [|now elim Hst].
    destruct (Schema_parse X (schema c) (params_arguments request))
      as [issues|args] eqn:Hp; [now elim Hst|].
    destruct (checks c args) as [e|[]] eqn:He; [now elim Hst|].
    exists c, args. auto.
Qed.

Lemma C5_validation_precedes_backend_witness :
  snd (CallTool Sample.X false (Sample.request "create_issue" (JObj []))
         Sample.st0) = Sample.st0
  /\ snd (CallTool Sample.X false
            (Sample.request "list_issues"
               (JObj [("project_id", JStr "123"); ("per_page", JNum 101)]))
            Sample.st0) = Sample.st0
  /\ validated Sample.X
       (Sample.request "list_issues" (JObj [("project_id", JStr "123")])).
Proof.
  split; [|split].
  - apply (proj1 (C5_validation_precedes_backend Sample.X false
                    (Sample.request "create_issue" (JObj [])) Sample.st0)
             (case_create_issue Sample.X)
             [ {| path := [Key "project_id"]; message := "Required" |};
               {| path := [Key "title"]; message := "Required" |} ]);
      reflexivity.
  - apply (proj1 (proj2 (C5_validation_precedes_backend Sample.X false
                    (Sample.request "list_issues"
                       (JObj [("project_id", JStr "123");
                              ("per_page", JNum 101)]))
                    Sample.st0))
             (case_list_issues Sample.X)
             [("project_id", JStr "123"); ("per_page", JNum 101)]
             (Error "per_page must be between 1 and 100"));
      reflexivity.
  - apply (proj2 (proj2 (C5_validation_precedes_backend Sample.X false
                    (Sample.request "list_issues"
                       (JObj [("project_id", JStr "123")]))
                    Sample.st0))).
    vm_compute. discriminate.
Defined.

(** C8.  When the schema rejects the arguments, the invocation fails with
    one message: "Invalid arguments: " followed by a line
    "<path>: <reason>" for every issue, joined by ", ".  Every issue is in
    the message, not only the first. *)
Theorem C8_every_violation_reported
  (X : Collaborators) (GITLAB_READ_ONLY_MODE : bool) (n : string)
  (arguments : Value) (st : Backend X) (c : ToolCase X)
  (issues : list ZodIssue) :
  truthy arguments = true ->
  read_only_check X GITLAB_READ_ONLY_MODE n = inr tt ->
  switch X n = Some c ->
  Schema_parse X (schema c) arguments = inl issues ->
  exists msg,
    CallTool X GITLAB_READ_ONLY_MODE
      {| params_name := n; params_arguments := arguments |} st
    = (inl (Error msg), st)
    /\ msg = "Invalid arguments: "
             ++ String.concat ", " (map issue_line issues)
    /\ forall e, In e issues ->
         includes msg
           (String.concat "." (map seg_string (path e)) ++ ": " ++ message e)
         = true.
Proof.
  intros Ha Hg Hc Hp. eexists. split; [|split; [reflexivity|]].
  - rewrite (CallTool_allowed X _ _ _ _ Ha Hg), Hc.
    apply (run_case_invalid X c arguments issues st Hp).
  - intros e He. apply includes_append_r, includes_concat.
    apply (in_map issue_line), He.
Qed.

Lemma C8_every_violation_reported_witness :
  exists msg,
    CallTool Sample.X false (Sample.request "create_issue" (JObj []))
      Sample.st0
    = (inl (Error msg), Sample.st0)
    /\ msg = "Invalid arguments: project_id: Required, title: Required"
    /\ forall e,
         In e [ {| path := [Key "project_id"]; message := "Required" |};
                {| path := [Key "title"]; message := "Required" |} ] ->
         includes msg
           (String.concat "." (map seg_string (path e)) ++ ": " ++ message e)
         = true.
Proof.
  apply (C8_every_violation_reported Sample.X false "create_issue" (JObj [])
           Sample.st0 (case_create_issue Sample.X)
           [ {| path := [Key "project_id"]; message := "Required" |};
             {| path := [Key "title"]; message := "Required" |} ]);
    reflexivity.
Defined.

End Validation.

(** ** [push_files] *)

Section PushFiles.

Local Open Scope string_scope.

Variable X : Collaborators.

(** One turn of the loop on a file object is its call, logged and run. *)
Lemma push_file_object (args file : Obj) (st : Backend X) :
  push_file X args (JObj file) st
  = let (r, w) := gitlabApi X (file_call args file) (world st) in
    (r, after X st [file_call args file] w).
Proof.
  unfold push_file, try_catch, bind, member, ret, call, after, file_call.
  simpl. destruct (gitlabApi X _ (world st)) as [[e|r] w]; reflexivity.
Qed.

Lemma after_after (st : Backend X) (cs cs' : list ApiCall) (w w' : World X) :
  after X (after X st cs w) cs' w' = after X st (cs ++ cs') w'.
Proof. unfold after. simpl. now rewrite app_assoc. Qed.

(** When every call succeeds the loop issues one call per file, in the
    order of the list, and collects the results. *)
Lemma push_files_loop_all (args : Obj) (files : list Obj) :
  forall (acc results : list Value) (st : Backend X) (w : World X),
    commit_all X (map (file_call args) files) (world st) = Some (results, w) ->
    push_files_loop X args (map JObj files) acc st
    = (inr (acc ++ results)%list, after X st (map (file_call args) files) w).
Proof.
  induction files as [|f files IH]; intros acc results st w H; simpl in H.
  - inversion H; subst. simpl. unfold ret, after.
    rewrite !app_nil_r. now destruct st.
  - simpl. unfold bind. rewrite push_file_object.
    destruct (gitlabApi X (file_call args f) (world st)) as [[e|r] w1];
      [discriminate|].
    destruct (commit_all X (map (file_call args) files) w1)
      as [[rs w2]|] eqn:Hrest; [|discriminate].
    inversion H; subst.
    rewrite (IH (acc ++ [r])%list rs (after X st [file_call args f] w1) w
               Hrest).
    rewrite after_after, <- app_assoc. reflexivity.
Qed.

(** When a call fails the loop stops there: the calls of the files before
    it and its own were issued, nothing after it. *)
Lemma push_files_loop_abort (args : Obj) (pre : list Obj) (f : Obj)
  (post : list Value) :
  forall (acc results : list Value) (st : Backend X) (w1 w2 : World X)
         (e : JsError),
    commit_all X (map (file_call args) pre) (world st) = Some (results, w1) ->
    gitlabApi X (file_call args f) w1 = (inl e, w2) ->
    push_files_loop X args (map JObj pre ++ JObj f :: post) acc st
    = (inl e, after X st (map (file_call args) (pre ++ [f])) w2).
Proof.
  induction pre as [|p pre IH]; intros acc results st w1 w2 e H Hf;
    simpl in H.
  - inversion H; subst. simpl. unfold bind. rewrite push_file_object, Hf.
    reflexivity.
  - simpl. unfold bind. rewrite push_file_object.
    destruct (gitlabApi X (file_call args p) (world st)) as [[e'|r] w];
      [discriminate|].
    destruct (commit_all X (map (file_call args) pre) w)
      as [[rs w']|] eqn:Hrest; [|discriminate].
    inversion H; subst.
    rewrite (IH (acc ++ [r])%list rs (after X st [file_call args p] w) w1 w2
               e Hrest Hf).
    rewrite after_after. reflexivity.
Qed.

(** C6.  [push_files] issues one [createOrUpdateFile] call per file of its
    list, one after the other in the order of the list.  When all succeed
    the invocation returns their results.  When the call of a file fails,
    the invocation fails with that error; the calls of the files before it
    and its own have been issued and the instance is the one they left,
    and no call is issued for the files after it. *)
Theorem C6_push_files_sequential_abort
  (arguments : Value) (args : Obj) (files : list Obj) (st : Backend X) :
  truthy arguments = true ->
  Schema_parse X PushFilesSchema arguments = inr args ->
  args.["files"] = JArr (map JObj files) ->
  (forall results w,
      commit_all X (map (file_call args) files) (world st)
      = Some (results, w) ->
      CallTool X false
        {| params_name := "push_files"; params_arguments := arguments |} st
      = (inr (json_content X (JArr results)),
         after X st (map (file_call args) files) w))
  /\ (forall pre f post results w1 e w2,
         files = (pre ++ f :: post)%list ->
         commit_all X (map (file_call args) pre) (world st)
         = Some (results, w1) ->
         gitlabApi X (file_call args f) w1 = (inl e, w2) ->
         CallTool X false
           {| params_name := "push_files"; params_arguments := arguments |} st
         = (inl (rethrown e),
            after X st (map (file_call args) (pre ++ [f])) w2)).
Proof.
  intros Ha Hp Hfiles.
  assert (Hrun : CallTool X false
            {| params_name := "push_files"; params_arguments := arguments |}
            st
          = try_catch X
              (bind X (push_files_loop X args (map JObj files) [])
                 (fun results => ret X (json_content X (JArr results))))
              (on_error X) st).
  { rewrite (CallTool_allowed X false _ _ _ Ha eq_refl).
    change (switch X "push_files") with (Some (case_push_files X)).
    cbv iota.
    rewrite (run_case_valid X (case_push_files X) arguments args st Hp eq_refl).
    unfold try_catch, bind. simpl. rewrite Hfiles. reflexivity. }
  rewrite Hrun. split.
  - intros results w H. unfold try_catch, bind.
    rewrite (push_files_loop_all args files [] results st w H). reflexivity.
  - intros pre f post results w1 e w2 -> H Hf. unfold try_catch, bind.
    rewrite (map_app JObj).
    change (map JObj (f :: post)) with (JObj f :: map JObj post).
    rewrite (push_files_loop_abort args pre f (map JObj post) [] results st
               w1 w2 e H Hf).
    apply on_error_rethrown.
Qed.

End PushFiles.

Section PushFilesRun.

Local Open Scope string_scope.

Lemma C6_push_files_sequential_abort_witness :
  CallTool Sample.X false
    (Sample.request "push_files"
       (JObj (Sample.push_args
                [Sample.file_a; Sample.file_locked; Sample.file_c])))
    Sample.st0
  = (inl (Error "403 Forbidden"),
     Build_Backend Sample.X [JStr "a.txt"]
       [ {| method := "createOrUpdateFile";
            params := [JStr "123"; JStr "a.txt"; JStr "A";
                       JStr "Add files"; JStr "main"] |};
         {| method := "createOrUpdateFile";
            params := [JStr "123"; JStr "locked.txt"; JStr "B";
                       JStr "Add files"; JStr "main"] |} ])
  /\ CallTool Sample.X false
       (Sample.request "push_files"
          (JObj (Sample.push_args [Sample.file_a; Sample.file_c])))
       Sample.st0
     = (inr (json_content Sample.X
               (JArr [JObj [("file_path", JStr "a.txt")];
                      JObj [("file_path", JStr "c.txt")]])),
        Build_Backend Sample.X [JStr "a.txt"; JStr "c.txt"]
          [ {| method := "createOrUpdateFile";
               params := [JStr "123"; JStr "a.txt"; JStr "A";
                          JStr "Add files"; JStr "main"] |};
            {| method := "createOrUpdateFile";
               params := [JStr "123"; JStr "c.txt"; JStr "C";
                          JStr "Add files"; JStr "main"] |} ]).
Proof.
  split.
  - apply (proj2 (C6_push_files_sequential_abort Sample.X
                    (JObj (Sample.push_args
                       [Sample.file_a; Sample.file_locked; Sample.file_c]))
                    (Sample.push_args
                       [Sample.file_a; Sample.file_locked; Sample.file_c])
                    [Sample.file_a; Sample.file_locked; Sample.file_c]
                    Sample.st0 eq_refl eq_refl eq_refl)
             [Sample.file_a] Sample.file_locked [Sample.file_c]
             [JObj [("file_path", JStr "a.txt")]] [JStr "a.txt"]
             (Error "403 Forbidden") [JStr "a.txt"]);
      reflexivity.
  - apply (proj1 (C6_push_files_sequential_abort Sample.X
                    (JObj (Sample.push_args [Sample.file_a; Sample.file_c]))
                    (Sample.push_args [Sample.file_a; Sample.file_c])
                    [Sample.file_a; Sample.file_c]
                    Sample.st0 eq_refl eq_refl eq_refl)
             [JObj [("file_path", JStr "a.txt")];
              JObj [("file_path", JStr "c.txt")]]
             [JStr "a.txt"; JStr "c.txt"]);
      reflexivity.
Defined.

End PushFilesRun.

(** ** Pagination and date checks *)

Section CrossField.

Local Open Scope string_scope.
Local Open Scope Z_scope.

Variable X : Collaborators.

Lemma to_number_JNum (n : Z) : to_number X (JNum n) = Some n.
Proof. reflexivity. Qed.

(** What the two pagination checks decide on a number. *)
Lemma check_per_page_number (args : Obj) (n : Z) :
  args.["per_page"] = JNum n ->
  check_per_page X args
  = when (negb (n =? 0) && ((n <? 1) || (n >? 100)))
         "per_page must be between 1 and 100".
Proof. intros H. unfold check_per_page, lt, gt. rewrite H. reflexivity. Qed.

Lemma check_page_number (args : Obj) (n : Z) :
  args.["page"] = JNum n ->
  check_page X args
  = when (negb (n =? 0) && (n <? 1)) "page must be greater than 0".
Proof. intros H. unfold check_page, lt. rewrite H. reflexivity. Qed.

(** An absent field passes. *)
Lemma check_per_page_absent (args : Obj) :
  args.["per_page"] = JUndefined -> check_per_page X args = inr tt.
Proof. intros H. unfold check_per_page. rewrite H. reflexivity. Qed.

Lemma check_page_absent (args : Obj) :
  args.["page"] = JUndefined -> check_page X args = inr tt.
Proof. intros H. unfold check_page. rewrite H. reflexivity. Qed.

(** [per_page]: 1 and 100 pass, 101 and the negative numbers are refused;
    0 is falsy and passes. *)
Lemma check_per_page_in_range (args : Obj) (n : Z) :
  args.["per_page"] = JNum n -> 1 <= n <= 100 ->
  check_per_page X args = inr tt.
Proof.
  intros H Hn. rewrite (check_per_page_number args n H).
  replace (n <? 1) with false by (symmetry; apply Z.ltb_ge; lia).
  replace (n >? 100) with false
    by (rewrite Z.gtb_ltb; symmetry; apply Z.ltb_ge; lia).
  now rewrite andb_false_r.
Qed.

Lemma check_per_page_out_of_range (args : Obj) (n : Z) :
  args.["per_page"] = JNum n -> n < 0 \/ 100 < n ->
  check_per_page X args = inl (Error "per_page must be between 1 and 100").
Proof.
  intros H Hn. rewrite (check_per_page_number args n H).
  replace (n =? 0) with false by (symmetry; apply Z.eqb_neq; lia).
  destruct Hn as [Hn|Hn].
  - replace (n <? 1) with true by (symmetry; apply Z.ltb_lt; lia).
    reflexivity.
  - replace (n >? 100) with true
      by (rewrite Z.gtb_ltb; symmetry; apply Z.ltb_lt; lia).
    now rewrite orb_true_r.
Qed.

Lemma check_per_page_zero (args : Obj) :
  args.["per_page"] = JNum 0 -> check_per_page X args = inr tt.
Proof. intros H. now rewrite (check_per_page_number args 0 H). Qed.

(** [page]: the positive numbers pass, the negative ones are refused; 0 is
    falsy and passes. *)
Lemma check_page_positive (args : Obj) (n : Z) :
  args.["page"] = JNum n -> 1 <= n -> check_page X args = inr tt.
Proof.
  intros H Hn. rewrite (check_page_number args n H).
  replace (n <? 1) with false by (symmetry; apply Z.ltb_ge; lia).
  now rewrite andb_false_r.
Qed.

Lemma check_page_negative (args : Obj) (n : Z) :
  args.["page"] = JNum n -> n < 0 ->
  check_page X args = inl (Error "page must be greater than 0").
Proof.
  intros H Hn. rewrite (check_page_number args n H).
  replace (n =? 0) with false by (symmetry; apply Z.eqb_neq; lia).
  replace (n <? 1) with true by (symmetry; apply Z.ltb_lt; lia).
  reflexivity.
Qed.

Lemma check_page_zero (args : Obj) :
  args.["page"] = JNum 0 -> check_page X args = inr tt.
Proof. intros H. now rewrite (check_page_number args 0 H). Qed.

(** Each of the six cases starts its checks with [per_page], then [page]. *)
Lemma paginated_checks (c : ToolCase X) :
  In c (paginated_cases X) ->
  exists more,
    forall args,
      checks c args = (check_per_page X args >> check_page X args >> more args).
Proof.
  intros Hin. simpl in Hin.
  destruct Hin as [<-|[<-|[<-|[<-|[<-|[<-|[]]]]]]]; simpl.
  - exists (fun _ => inr tt). intros args.
    destruct (check_per_page X args) as [|[]]; simpl; [reflexivity|].
    now destruct (check_page X args) as [|[]].
  - eexists (fun args => _ >> _). reflexivity.
  - exists (check_dateFields X). reflexivity.
  - exists (check_dateFields X). reflexivity.
  - exists (fun _ => inr tt). intros args.
    destruct (check_per_page X args) as [|[]]; simpl; [reflexivity|].
    now destruct (check_page X args) as [|[]].
  - exists (fun _ => inr tt). intros args.
    destruct (check_per_page X args) as [|[]]; simpl; [reflexivity|].
    now destruct (check_page X args) as [|[]].
Qed.

(** In each of the six cases a [per_page] of 101 is refused with the
    [per_page] message, and after a [per_page] that passes a negative
    [page] is refused with the [page] message. *)
Lemma paginated_per_page_refused (c : ToolCase X) (args : Obj) (n : Z) :
  In c (paginated_cases X) ->
  args.["per_page"] = JNum n -> n < 0 \/ 100 < n ->
  checks c args = inl (Error "per_page must be between 1 and 100").
Proof.
  intros Hin H Hn. destruct (paginated_checks c Hin) as [more ->].
  now rewrite (check_per_page_out_of_range args n H Hn).
Qed.

Lemma paginated_page_refused (c : ToolCase X) (args : Obj) (n : Z) :
  In c (paginated_cases X) ->
  check_per_page X args = inr tt ->
  args.["page"] = JNum n -> n < 0 ->
  checks c args = inl (Error "page must be greater than 0").
Proof.
  intros Hin Hpp H Hn. destruct (paginated_checks c Hin) as [more ->].
  now rewrite Hpp, (check_page_negative args n H Hn).
Qed.

End CrossField.

Section Dates.

Local Open Scope string_scope.

Variable X : Collaborators.

(** [list_commits]: once the pagination checks pass, a truthy [since] that
    [isValidISODate] refuses is refused with the [since] message. *)
Lemma list_commits_since_refused (args : Obj) :
  check_per_page X args = inr tt ->
  check_page X args = inr tt ->
  truthy args.["since"] = true ->
  isValidISODate X args.["since"] = false ->
  checks (case_list_commits X) args
  = inl (Error "since must be a valid ISO 8601 date (YYYY-MM-DDTHH:MM:SSZ)").
Proof.
  intros Hpp Hp Ht Hv. simpl. rewrite Hpp, Hp, Ht, Hv. reflexivity.
Qed.

(** Likewise [until], once [since] passes. *)
Lemma list_commits_until_refused (args : Obj) :
  check_per_page X args = inr tt ->
  check_page X args = inr tt ->
  truthy args.["since"] && negb (isValidISODate X args.["since"]) = false ->
  truthy args.["until"] = true ->
  isValidISODate X args.["until"] = false ->
  checks (case_list_commits X) args
  = inl (Error "until must be a valid ISO 8601 date (YYYY-MM-DDTHH:MM:SSZ)").
Proof.
  intros Hpp Hp Hs Ht Hv. simpl. rewrite Hpp, Hp, Hs, Ht, Hv. reflexivity.
Qed.

(** Dates that [isValidISODate] accepts pass. *)
Lemma list_commits_dates_accepted (args : Obj) :
  check_per_page X args = inr tt ->
  check_page X args = inr tt ->
  isValidISODate X args.["since"] = true ->
  isValidISODate X args.["until"] = true ->
  checks (case_list_commits X) args = inr tt.
Proof.
  intros Hpp Hp Hs Hu. simpl. rewrite Hpp, Hp, Hs, Hu, !andb_false_r.
  reflexivity.
Qed.

(** A falsy [since], the empty string among them, is not looked at. *)
Lemma list_commits_falsy_since_skipped (args : Obj) :
  check_per_page X args = inr tt ->
  check_page X args = inr tt ->
  truthy args.["since"] = false ->
  truthy args.["until"] = false ->
  checks (case_list_commits X) args = inr tt.
Proof. intros Hpp Hp Hs Hu. simpl. rewrite Hpp, Hp, Hs, Hu. reflexivity. Qed.

(** [list_issues] tests [typeof value === 'string'] instead: there an
    empty [created_after] is refused like any other string that is not a
    date. *)
Lemma list_issues_created_after_refused (args : Obj) (s : string) :
  check_per_page X args = inr tt ->
  check_page X args = inr tt ->
  args.["created_after"] = JStr s ->
  isValidISODate X (JStr s) = false ->
  checks (case_list_issues X) args
  = inl (Error
      "created_after must be a valid ISO 8601 date (YYYY-MM-DDTHH:MM:SSZ)").
Proof.
  intros Hpp Hp Hs Hv. simpl. rewrite Hpp, Hp. simpl.
  unfold check_dateFields. simpl. rewrite Hs, Hv. reflexivity.
Qed.

End Dates.

(** ** Invocations that pass validation with a zero or an empty field *)

Section FalsyFields.

Local Open Scope string_scope.

Variable X : Collaborators.

(** A case whose body is one call and one formatting step. *)
Lemma run_single_call (m : string) (ps : list Value) (format : Value -> Value)
  (st : Backend X) :
  try_catch X (bind X (call X m ps) (fun v => ret X (format v))) (on_error X) st
  = single_call X {| method := m; params := ps |} format st.
Proof.
  unfold try_catch, bind, call, ret, single_call, after.
  destruct (gitlabApi X _ (world st)) as [[e|v] w]; simpl;
    [apply on_error_rethrown | reflexivity].
Qed.

Lemma list_issues_allowed (GITLAB_READ_ONLY_MODE : bool) :
  read_only_check X GITLAB_READ_ONLY_MODE "list_issues" = inr tt.
Proof. destruct GITLAB_READ_ONLY_MODE; reflexivity. Qed.

Lemma list_commits_allowed (GITLAB_READ_ONLY_MODE : bool) :
  read_only_check X GITLAB_READ_ONLY_MODE "list_commits" = inr tt.
Proof. destruct GITLAB_READ_ONLY_MODE; reflexivity. Qed.

(** C2, on the code.  [list_issues] invoked with
    [{project_id: "123", page: 0}], once the schema lets these arguments
    through, is not refused: the check [args.page && args.page < 1] does
    not fire on 0, and the handler calls [listIssues] with [page: 0]. *)
Theorem C2_page_zero_reaches_backend
  (GITLAB_READ_ONLY_MODE : bool) (arguments : Value) (st : Backend X) :
  truthy arguments = true ->
  Schema_parse X ListIssuesSchema arguments
  = inr [("project_id", JStr "123"); ("page", JNum 0)] ->
  CallTool X GITLAB_READ_ONLY_MODE
    {| params_name := "list_issues"; params_arguments := arguments |} st
  = single_call X
      {| method := "listIssues";
         params := [JStr "123"; JObj [("page", JNum 0)]] |}
      (formatIssuesResponse X) st.
Proof.
  intros Ha Hp.
  rewrite (CallTool_allowed X _ _ _ _ Ha (list_issues_allowed _)).
  change (switch X "list_issues") with (Some (case_list_issues X)).
  cbv iota.
  rewrite (run_case_valid X (case_list_issues X) arguments _ st Hp eq_refl).
  apply run_single_call.
Qed.

(** C3, on the code.  [list_issues] invoked with
    [{project_id: "123", per_page: 0}], once the schema lets these
    arguments through, is not refused: the check
    [args.per_page && (args.per_page < 1 || args.per_page > 100)] does not
    fire on 0, and the handler calls [listIssues] with [per_page: 0]. *)
Theorem C3_per_page_zero_reaches_backend
  (GITLAB_READ_ONLY_MODE : bool) (arguments : Value) (st : Backend X) :
  truthy arguments = true ->
  Schema_parse X ListIssuesSchema arguments
  = inr [("project_id", JStr "123"); ("per_page", JNum 0)] ->
  CallTool X GITLAB_READ_ONLY_MODE
    {| params_name := "list_issues"; params_arguments := arguments |} st
  = single_call X
      {| method := "listIssues";
         params := [JStr "123"; JObj [("per_page", JNum 0)]] |}
      (formatIssuesResponse X) st.
Proof.
  intros Ha Hp.
  rewrite (CallTool_allowed X _ _ _ _ Ha (list_issues_allowed _)).
  change (switch X "list_issues") with (Some (case_list_issues X)).
  cbv iota.
  rewrite (run_case_valid X (case_list_issues X) arguments _ st Hp eq_refl).
  apply run_single_call.
Qed.

(** C9, on the code.  [list_commits] invoked with
    [{project_id: "123", since: ""}], once the schema lets these arguments
    through, is not refused whatever [isValidISODate] says of the empty
    string: the check [args.since && !isValidISODate(args.since)] does not
    fire on it, and the handler calls [listCommits] with [since: ""]. *)
Theorem C9_empty_since_reaches_backend
  (GITLAB_READ_ONLY_MODE : bool) (arguments : Value) (st : Backend X) :
  truthy arguments = true ->
  Schema_parse X ListCommitsSchema arguments
  = inr [("project_id", JStr "123"); ("since", JStr "")] ->
  CallTool X GITLAB_READ_ONLY_MODE
    {| params_name := "list_commits"; params_arguments := arguments |} st
  = single_call X
      {| method := "listCommits";
         params := [JStr "123"; JObj [("since", JStr "")]] |}
      (formatCommitsResponse X) st.
Proof.
  intros Ha Hp.
  rewrite (CallTool_allowed X _ _ _ _ Ha (list_commits_allowed _)).
  change (switch X "list_commits") with (Some (case_list_commits X)).
  cbv iota.
  rewrite (run_case_valid X (case_list_commits X) arguments _ st Hp eq_refl).
  apply run_single_call.
Qed.

End FalsyFields.

Section FalsyFieldsRun.

Local Open Scope string_scope.

Lemma C2_page_zero_reaches_backend_witness :
  CallTool Sample.X false
    (Sample.request "list_issues"
       (JObj [("project_id", JStr "123"); ("page", JNum 0)]))
    Sample.st0
  = (inr (JArr []),
     Build_Backend Sample.X []
       [ {| method := "listIssues";
            params := [JStr "123"; JObj [("page", JNum 0)]] |} ]).
Proof.
  apply (C2_page_zero_reaches_backend Sample.X false
           (JObj [("project_id", JStr "123"); ("page", JNum 0)]) Sample.st0);
    reflexivity.
Defined.

Lemma C3_per_page_zero_reaches_backend_witness :
  CallTool Sample.X false
    (Sample.request "list_issues"
       (JObj [("project_id", JStr "123"); ("per_page", JNum 0)]))
    Sample.st0
  = (inr (JArr []),
     Build_Backend Sample.X []
       [ {| method := "listIssues";
            params := [JStr "123"; JObj [("per_page", JNum 0)]] |} ]).
Proof.
  apply (C3_per_page_zero_reaches_backend Sample.X false
           (JObj [("project_id", JStr "123"); ("per_page", JNum 0)])
           Sample.st0);
    reflexivity.
Defined.

Lemma C9_empty_since_reaches_backend_witness :
  IsoDate.isValidISODate_spec (JStr "") = false
  /\ CallTool Sample.X false
       (Sample.request "list_commits"
          (JObj [("project_id", JStr "123"); ("since", JStr "")]))
       Sample.st0
     = (inr (JArr []),
        Build_Backend Sample.X []
          [ {| method := "listCommits";
               params := [JStr "123"; JObj [("since", JStr "")]] |} ]).
Proof.
  split; [reflexivity|].
  apply (C9_empty_since_reaches_backend Sample.X false
           (JObj [("project_id", JStr "123"); ("since", JStr "")])
           Sample.st0);
    reflexivity.
Defined.

(** The neighbouring values, run on the sample environment: [page] 1,
    [per_page] 1 and 100 reach the backend; [per_page] 101 and a [since]
    that is not a date are refused before it; a [since] that is a date
    reaches it; and [list_issues] refuses an empty [created_after]. *)
Example accepted_and_refused_runs :
  fst (CallTool Sample.X false
         (Sample.request "list_issues"
            (JObj [("project_id", JStr "123"); ("page", JNum 1)]))
         Sample.st0) = inr (JArr [])
  /\ fst (CallTool Sample.X false
            (Sample.request "list_issues"
               (JObj [("project_id", JStr "123"); ("per_page", JNum 1)]))
            Sample.st0) = inr (JArr [])
  /\ fst (CallTool Sample.X false
            (Sample.request "list_issues"
               (JObj [("project_id", JStr "123"); ("per_page", JNum 100)]))
            Sample.st0) = inr (JArr [])
  /\ CallTool Sample.X false
       (Sample.request "list_issues"
          (JObj [("project_id", JStr "123"); ("per_page", JNum 101)]))
       Sample.st0
     = (inl (Error "per_page must be between 1 and 100"), Sample.st0)
  /\ CallTool Sample.X false
       (Sample.request "list_commits"
          (JObj [("project_id", JStr "123"); ("since", JStr "not-a-date")]))
       Sample.st0
     = (inl (Error
          "since must be a valid ISO 8601 date (YYYY-MM-DDTHH:MM:SSZ)"),
        Sample.st0)
  /\ fst (CallTool Sample.X false
            (Sample.request "list_commits"
               (JObj [("project_id", JStr "123");
                      ("since", JStr "2024-01-15T10:30:00Z")]))
            Sample.st0) = inr (JArr [])
  /\ CallTool Sample.X false
       (Sample.request "list_issues"
          (JObj [("project_id", JStr "123"); ("created_after", JStr "")]))
       Sample.st0
     = (inl (Error
          "created_after must be a valid ISO 8601 date (YYYY-MM-DDTHH:MM:SSZ)"),
        Sample.st0).
Proof. repeat split. Qed.

End FalsyFieldsRun.

(** ** Every case of the [switch] *)

Section EveryCase.

Local Open Scope string_scope.

Variable X : Collaborators.

(** The case the [switch] selects for a name is the one listed under it. *)
Lemma switch_In (n : string) (c : ToolCase X) :
  switch X n = Some c -> In (n, c) (cases X).
Proof.
  unfold switch. destruct (find _ (cases X)) as [[n' c']|] eqn:Hf;
    [|discriminate].
  simpl. intros H. inversion H; subst c'.
  apply find_some in Hf as [Hin Hn]. simpl in Hn.
  apply String.eqb_eq in Hn. now subst n'.
Qed.

(** An invocation that gets through the read-only check and both stages of
    validation is the rest of its case, run under the [catch]. *)
Lemma CallTool_validated (GITLAB_READ_ONLY_MODE : bool) (n : string)
  (arguments : Value) (c : ToolCase X) (args : Obj) (st : Backend X) :
  truthy arguments = true ->
  read_only_check X GITLAB_READ_ONLY_MODE n = inr tt ->
  switch X n = Some c ->
  Schema_parse X (schema c) arguments = inr args ->
  checks c args = inr tt ->
  CallTool X GITLAB_READ_ONLY_MODE
    {| params_name := n; params_arguments := arguments |} st
  = try_catch X (body c args) (on_error X) st.
Proof.
  intros Ha Hg Hc Hp Hk.
  rewrite (CallTool_allowed X _ _ _ _ Ha Hg), Hc.
  apply (run_case_valid X c arguments args st Hp Hk).
Qed.

(** Apart from [push_files] and [create_branch], the rest of a case is one
    call on the client and a step that shapes its result, into one text
    block or through one of the formatters. *)
Lemma body_single_call (n : string) (c : ToolCase X) (args : Obj) :
  In (n, c) (cases X) ->
  n <> "push_files" -> n <> "create_branch" ->
  exists (k : ApiCall) (format : Value -> Value),
    (forall st,
        try_catch X (body c args) (on_error X) st = single_call X k format st)
    /\ (forall r,
           (exists t, format r = text_content t)
           \/ In (format r) (formatted X r)).
Proof.
  intros Hin Hpush Hbranch. unfold cases in Hin. simpl In in Hin.
  repeat (destruct Hin as [Hin|Hin];
          [ injection Hin as <- <-;
            try (now elim Hpush); try (now elim Hbranch);
            (eexists; eexists; split;
             [ intros st; apply run_single_call
             | intros r;
               first [ left; eexists; reflexivity
                     | right; unfold formatted;
                       repeat (try (left; reflexivity); right) ] ])
          | ]).
  destruct Hin.
Qed.





End EveryCase.

(** ** The catalog against the [switch] and the listing *)

Section CatalogAgreement.

Local Open Scope string_scope.

Variable X : Collaborators.

(** X1.  Every catalog entry has a case in the [switch], and the schema
    that case parses the arguments with is the one the entry advertises as
    its [inputSchema]. *)
Theorem X1_advertised_schema_is_enforced (t : Tool) :
  In t (ALL_TOOLS X) ->
  exists c,
    switch X (name t) = Some c
    /\ inputSchema t = createJsonSchema X (schema c).
Proof.
  intros Hin. unfold ALL_TOOLS in Hin. simpl In in Hin.
  repeat (destruct Hin as [<-|Hin];
          [eexists; split; reflexivity|]).
  destruct Hin.
Qed.

Lemma createJsonSchema_shape (s : Schema) :
  exists props,
    createJsonSchema X s
    = JObj [("type", JStr "object"); ("properties", props)]
    /\ truthy props = true.
Proof.
  unfold createJsonSchema, or_else.
  destruct (truthy (zodToJsonSchema X s).["properties"]) eqn:E;
    eexists; split; try reflexivity. exact E.
Qed.

Lemma catalog_inputSchema (t : Tool) :
  In t (ALL_TOOLS X) -> exists s, inputSchema t = createJsonSchema X s.
Proof.
  intros Hin. unfold ALL_TOOLS in Hin. simpl In in Hin.
  repeat (destruct Hin as [<-|Hin]; [eexists; reflexivity|]).
  destruct Hin.
Qed.

(** X2.  Whatever the schema conversion returns, the [inputSchema] of
    every catalog entry is an object with exactly the keys [type], which is
    ["object"], and [properties], which is never missing or falsy: when the
    conversion yields none it is the empty object. *)
Theorem X2_input_schema_shape (t : Tool) :
  In t (ALL_TOOLS X) ->
  exists props,
    inputSchema t = JObj [("type", JStr "object"); ("properties", props)]
    /\ truthy props = true.
Proof.
  intros Hin. destruct (catalog_inputSchema t Hin) as [s ->].
  apply createJsonSchema_shape.
Qed.

(** The names shown for a list of tools. *)
Lemma listed_names_descriptors (l : list Tool) :
  listed_names (JObj [("tools", JArr (map descriptor l))])
  = map (fun t => JStr (name t)) l.
Proof.
  unfold listed_names. simpl. rewrite map_map. reflexivity.
Qed.

Lemma In_listed (n : string) (l : list Tool) :
  In (JStr n) (map (fun t => JStr (name t)) l)
  <-> exists t, In t l /\ name t = n.
Proof.
  rewrite in_map_iff. split.
  - intros (t & E & Hin). inversion E. now exists t.
  - intros (t & Hin & <-). now exists t.
Qed.

(** The read-only check lets a name through exactly when it is the name of
    a read-only catalog entry. *)
Lemma read_only_check_passes (n : string) :
  read_only_check X true n = inr tt
  <-> exists t, In t (filter readOnly (ALL_TOOLS X)) /\ name t = n.
Proof.
  unfold read_only_check, when. split.
  - destruct (find _ (ALL_TOOLS X)) as [t|] eqn:Hf; [|discriminate].
    destruct (readOnly t) eqn:Hro; [|discriminate]. intros _.
    apply find_some in Hf as [Hin Hn]. apply String.eqb_eq in Hn.
    exists t. split; [|exact Hn]. apply filter_In. now split.
  - intros (t & Hin & <-). apply filter_In in Hin as [Hin Hro].
    rewrite (find_tool X t Hin). simpl. now rewrite Hro.
Qed.

Lemma switch_Some_iff (n : string) :
  switch X n <> None <-> exists t, In t (ALL_TOOLS X) /\ name t = n.
Proof.
  rewrite switch_None.
  split.
  - intros H. destruct (find _ (ALL_TOOLS X)) as [t|] eqn:Hf; [|now elim H].
    apply find_some in Hf as [Hin Hn]. apply String.eqb_eq in Hn.
    now exists t.
  - intros (t & Hin & <-). now rewrite (find_tool X t Hin).
Qed.

(** X3.  In either mode, a name is shown by the listing exactly when an
    invocation of it passes the read-only check and reaches a case of the
    [switch]: what is listed is what can be invoked. *)
Theorem X3_listed_iff_invocable (GITLAB_READ_ONLY_MODE : bool) (n : string) :
  In (JStr n) (listed_names (ListTools X GITLAB_READ_ONLY_MODE))
  <-> read_only_check X GITLAB_READ_ONLY_MODE n = inr tt
      /\ switch X n <> None.
Proof.
  unfold ListTools. destruct GITLAB_READ_ONLY_MODE;
    rewrite listed_names_descriptors, In_listed.
  - rewrite read_only_check_passes, switch_Some_iff. split.
    + intros (t & Hin & Hn). split; [now exists t|].
      exists t. split; [|exact Hn]. now apply filter_In in Hin.
    + now intros [H _].
  - rewrite switch_Some_iff. split; [now split | now intros [_ H]].
Qed.

End CatalogAgreement.

(** ** Modes, errors and responses of an invocation *)

Section Invocation.

Local Open Scope string_scope.

Variable X : Collaborators.

(** X4.  An invocation that the read-only check lets through gives in
    read-only mode the very result, and leaves the very backend, it gives
    with the mode off: the flag only ever refuses, it never changes what a
    permitted tool does. *)
Theorem X4_permitted_tool_ignores_mode
  (request : CallToolRequest) (st : Backend X) :
  read_only_check X true (params_name request) = inr tt ->
  CallTool X true request st = CallTool X false request st.
Proof.
  intros H. rewrite !CallTool_stages, H. reflexivity.
Qed.

(** Nothing leaves the [catch] as a [ZodError]. *)
Lemma try_catch_on_error_no_ZodError {A} (m : M X A) (st : Backend X) :
  match fst (try_catch X m (on_error X) st) with
  | inl (ZodError _) => False
  | _ => True
  end.
Proof.
  unfold try_catch. destruct (m st) as [[e|a] st']; [|exact I].
  rewrite on_error_rethrown. now destruct e.
Qed.

(** X5.  Whatever the request, the mode and the backend, the handler never
    throws a [ZodError]: every failure leaves it as a plain [Error] with a
    message, the issues of a [ZodError] folded into that message. *)
Theorem X5_handler_never_throws_ZodError
  (GITLAB_READ_ONLY_MODE : bool) (request : CallToolRequest)
  (st : Backend X) :
  match fst (CallTool X GITLAB_READ_ONLY_MODE request st) with
  | inl (ZodError _) => False
  | inl (Error _) => True
  | inr _ => True
  end.
Proof.
  pose proof (try_catch_on_error_no_ZodError
    (bind X (lift X (when (negb (truthy (params_arguments request)))
                          "Arguments are required"))
       (fun _ =>
        bind X (lift X (read_only_check X GITLAB_READ_ONLY_MODE
                          (params_name request)))
          (fun _ =>
           match switch X (params_name request) with
           | Some c => run_case X c (params_arguments request)
           | None =>
               throw X (Error ("Unknown tool: " ++ params_name request))
           end))) st) as H.
  change (match fst (CallTool X GITLAB_READ_ONLY_MODE request st) with
          | inl (ZodError _) => False
          | _ => True
          end) in H.
  destruct (fst (CallTool X GITLAB_READ_ONLY_MODE request st)) as [[|]|];
    exact H.
Qed.

(** X6.  Every tool other than [push_files] and [create_branch], once its
    arguments pass validation, issues exactly one call on the client,
    whether that call succeeds or fails. *)
Theorem X6_one_backend_call_per_tool
  (GITLAB_READ_ONLY_MODE : bool) (n : string) (arguments : Value)
  (c : ToolCase X) (args : Obj) (st : Backend X) :
  truthy arguments = true ->
  read_only_check X GITLAB_READ_ONLY_MODE n = inr tt ->
  switch X n = Some c ->
  n <> "push_files" -> n <> "create_branch" ->
  Schema_parse X (schema c) arguments = inr args ->
  checks c args = inr tt ->
  exists k,
    calls (snd (CallTool X GITLAB_READ_ONLY_MODE
                  {| params_name := n; params_arguments := arguments |} st))
    = (calls st ++ [k])%list.
Proof.
  intros Ha Hg Hc Hpush Hbranch Hp Hk.
  rewrite (CallTool_validated X _ n arguments c args st Ha Hg Hc Hp Hk).
  destruct (body_single_call X n c args (switch_In X n c Hc) Hpush Hbranch)
    as (k & format & -> & _).
  exists k. unfold single_call.
  now destruct (gitlabApi X k (world st)) as [r w].
Qed.

(** X7.  For those tools the outcome of the call is the outcome of the
    invocation.  It succeeds exactly when the call does; an [Error] of the
    client is rethrown with its message untouched; a [ZodError] thrown by
    the client, about the response, comes out as "Invalid arguments: ..."
    as if the arguments were at fault.  In every case the backend is left
    as the call left it. *)
Theorem X7_backend_outcome_surfaces
  (GITLAB_READ_ONLY_MODE : bool) (n : string) (arguments : Value)
  (c : ToolCase X) (args : Obj) (st : Backend X) :
  truthy arguments = true ->
  read_only_check X GITLAB_READ_ONLY_MODE n = inr tt ->
  switch X n = Some c ->
  n <> "push_files" -> n <> "create_branch" ->
  Schema_parse X (schema c) arguments = inr args ->
  checks c args = inr tt ->
  exists k,
    snd (CallTool X GITLAB_READ_ONLY_MODE
           {| params_name := n; params_arguments := arguments |} st)
    = after X st [k] (snd (gitlabApi X k (world st)))
    /\ match fst (gitlabApi X k (world st)) with
       | inl (Error msg) =>
           fst (CallTool X GITLAB_READ_ONLY_MODE
                  {| params_name := n; params_arguments := arguments |} st)
           = inl (Error msg)
       | inl (ZodError issues) =>
           fst (CallTool X GITLAB_READ_ONLY_MODE
                  {| params_name := n; params_arguments := arguments |} st)
           = inl (Error ("Invalid arguments: "
                         ++ String.concat ", " (map issue_line issues)))
       | inr _ =>
           exists v,
             fst (CallTool X GITLAB_READ_ONLY_MODE
                    {| params_name := n; params_arguments := arguments |} st)
             = inr v
       end.
Proof.
  intros Ha Hg Hc Hpush Hbranch Hp Hk.
  destruct (body_single_call X n c args (switch_In X n c Hc) Hpush Hbranch)
    as (k & format & Hrun & _).
  exists k.
  rewrite (CallTool_validated X _ n arguments c args st Ha Hg Hc Hp Hk), Hrun.
  unfold single_call.
  destruct (gitlabApi X k (world st)) as [[[issues|msg]|v] w]; simpl;
    split; try reflexivity.
  now exists (format v).
Qed.

End Invocation.

Section InvocationRuns.

Local Open Scope string_scope.

Lemma X4_permitted_tool_ignores_mode_witness :
  CallTool Sample.X true
    (Sample.request "list_issues" (JObj [("project_id", JStr "123")]))
    Sample.st0
  = CallTool Sample.X false
      (Sample.request "list_issues" (JObj [("project_id", JStr "123")]))
      Sample.st0.
Proof.
  apply (X4_permitted_tool_ignores_mode Sample.X
           (Sample.request "list_issues" (JObj [("project_id", JStr "123")]))
           Sample.st0).
  reflexivity.
Defined.

Lemma X6_one_backend_call_per_tool_witness :
  exists k,
    calls (snd (CallTool Sample.X true
                  (Sample.request "get_project"
                     (JObj [("project_id", JStr "123")]))
                  Sample.st0))
    = ([] ++ [k])%list.
Proof.
  apply (X6_one_backend_call_per_tool Sample.X true "get_project"
           (JObj [("project_id", JStr "123")])
           (case_get_project Sample.X) [("project_id", JStr "123")]
           Sample.st0);
    try reflexivity; discriminate.
Defined.

Lemma X7_backend_outcome_surfaces_witness :
  exists k,
    snd (CallTool Sample.X false
           (Sample.request "create_or_update_file"
              (JObj Sample.locked_write))
           Sample.st0)
    = after Sample.X Sample.st0 [k]
        (snd (gitlabApi Sample.X k (world Sample.st0)))
    /\ match fst (gitlabApi Sample.X k (world Sample.st0)) with
       | inl (Error msg) =>
           fst (CallTool Sample.X false
                  (Sample.request "create_or_update_file"
                     (JObj Sample.locked_write))
                  Sample.st0)
           = inl (Error msg)
       | inl (ZodError issues) =>
           fst (CallTool Sample.X false
                  (Sample.request "create_or_update_file"
                     (JObj Sample.locked_write))
                  Sample.st0)
           = inl (Error ("Invalid arguments: "
                         ++ String.concat ", " (map issue_line issues)))
       | inr _ =>
           exists v,
             fst (CallTool Sample.X false
                    (Sample.request "create_or_update_file"
                       (JObj Sample.locked_write))
                    Sample.st0)
             = inr v
       end.
Proof.
  apply (X7_backend_outcome_surfaces Sample.X false "create_or_update_file"
           (JObj Sample.locked_write)
           (case_create_or_update_file Sample.X) Sample.locked_write
           Sample.st0);
    try reflexivity; discriminate.
Defined.

(** On the sample client, where writing [locked.txt] is refused, the
    refusal is what the invocation throws. *)
Example locked_write_run :
  CallTool Sample.X false
    (Sample.request "create_or_update_file" (JObj Sample.locked_write))
    Sample.st0
  = (inl (Error "403 Forbidden"),
     Build_Backend Sample.X []
       [ {| method := "createOrUpdateFile";
            params := [JStr "123"; JStr "locked.txt"; JStr "B";
                       JStr "Update"; JStr "main"; JUndefined] |} ]).
Proof. reflexivity. Qed.

End InvocationRuns.

(** ** Responses, [create_branch] and [push_files] *)

Section Responses.

Local Open Scope string_scope.

Variable X : Collaborators.


(** A call followed by more: the call is issued, and the rest runs only
    when it succeeds. *)
Lemma bind_call {A} (m : string) (ps : list Value) (k : Value -> M X A)
  (st : Backend X) :
  bind X (call X m ps) k st
  = match gitlabApi X {| method := m; params := ps |} (world st) with
    | (inl e, w) =>
        (inl e, after X st [{| method := m; params := ps |}] w)
    | (inr v, w) => k v (after X st [{| method := m; params := ps |}] w)
    end.
Proof.
  unfold bind, call, after.
  now destruct (gitlabApi X _ (world st)) as [[e|v] w].
Qed.

(** X9.  [create_branch] with a [ref] calls [createBranch] with it and
    nothing else.  Without one (absent or empty) it first asks the client
    for the default branch: if that call fails the invocation fails with
    its error and [createBranch] is never issued, otherwise [createBranch]
    is called with the answer as [ref]. *)
Theorem X9_create_branch_default_ref
  (arguments : Value) (args : Obj) (st : Backend X) :
  truthy arguments = true ->
  Schema_parse X CreateBranchSchema arguments = inr args ->
  (truthy args.["ref"] = true ->
   CallTool X false
     {| params_name := "create_branch"; params_arguments := arguments |} st
   = single_call X
       {| method := "createBranch";
          params := [args.["project_id"];
                     JObj [("name", args.["branch"]);
                           ("ref", args.["ref"])]] |}
       (json_content X) st)
  /\ (truthy args.["ref"] = false ->
      CallTool X false
        {| params_name := "create_branch"; params_arguments := arguments |} st
      = let k := {| method := "getDefaultBranchRef";
                    params := [args.["project_id"]] |} in
        match gitlabApi X k (world st) with
        | (inl e, w) => (inl (rethrown e), after X st [k] w)
        | (inr ref, w) =>
            single_call X
              {| method := "createBranch";
                 params := [args.["project_id"];
                            JObj [("name", args.["branch"]); ("ref", ref)]] |}
              (json_content X) (after X st [k] w)
        end).
Proof.
  intros Ha Hp.
  rewrite (CallTool_validated X false "create_branch" arguments
             (case_create_branch X) args st Ha eq_refl eq_refl Hp eq_refl).
  split; intros Href.
  - rewrite <- run_single_call.
    unfold try_catch, bind. simpl. rewrite Href. reflexivity.
  - unfold try_catch. cbn [body case_create_branch].
    rewrite Href. cbn [negb]. rewrite bind_call.
    destruct (gitlabApi X _ (world st)) as [[e|ref] w].
    + apply on_error_rethrown.
    + rewrite <- run_single_call. reflexivity.
Qed.

(** X10.  [push_files] with an empty list of files issues no call at all
    and succeeds, returning the serialisation of an empty array. *)
Theorem X10_push_files_empty
  (arguments : Value) (args : Obj) (st : Backend X) :
  truthy arguments = true ->
  Schema_parse X PushFilesSchema arguments = inr args ->
  args.["files"] = JArr [] ->
  CallTool X false
    {| params_name := "push_files"; params_arguments := arguments |} st
  = (inr (json_content X (JArr [])), st).
Proof.
  intros Ha Hp Hfiles.
  rewrite (CallTool_validated X false "push_files" arguments
             (case_push_files X) args st Ha eq_refl eq_refl Hp eq_refl).
  unfold try_catch, bind. simpl. rewrite Hfiles. reflexivity.
Qed.

(** Whatever the client does, the loop issues the calls of the first [k]
    files, for some [k], and returns only if [k] is the whole list, with
    one result per file. *)
Lemma push_files_loop_prefix (args : Obj) (files : list Obj) :
  forall (acc : list Value) (st : Backend X),
  exists k w,
    k <= length files
    /\ snd (push_files_loop X args (map JObj files) acc st)
       = after X st (map (file_call args) (firstn k files)) w
    /\ (forall results,
           fst (push_files_loop X args (map JObj files) acc st) = inr results ->
           k = length files /\ length results = length acc + length files).
Proof.
  induction files as [|f files IH]; intros acc st.
  - exists 0, (world st). simpl. unfold ret, after. rewrite app_nil_r.
    split; [lia|]. split; [now destruct st|].
    intros results H. inversion H. split; [reflexivity | lia].
  - simpl. unfold bind. rewrite push_file_object.
    destruct (gitlabApi X (file_call args f) (world st)) as [[e|r] w1].
    + exists 1, w1. simpl. split; [lia|]. split; [reflexivity|].
      intros results H. discriminate H.
    + destruct (IH (acc ++ [r])%list (after X st [file_call args f] w1))
        as (k & w & Hk & Hst & Hres).
      exists (S k), w. split; [simpl; lia|]. split.
      * rewrite Hst, after_after. reflexivity.
      * intros results H. destruct (Hres results H) as [-> Hlen].
        split; [reflexivity|]. rewrite Hlen, length_app. simpl. lia.
Qed.

(** The rest of the [push_files] case on a list of files: the loop, then
    the serialisation of its results. *)
Lemma push_files_body (args : Obj) (files : list Obj) (st : Backend X) :
  args.["files"] = JArr (map JObj files) ->
  body (case_push_files X) args st
  = match push_files_loop X args (map JObj files) [] st with
    | (inl e, st1) => (inl e, st1)
    | (inr results, st1) => (inr (json_content X (JArr results)), st1)
    end.
Proof.
  intros Hfiles. cbn [body case_push_files]. rewrite Hfiles. reflexivity.
Qed.

(** X11.  Whatever the client answers, [push_files] on a list of file
    objects issues the calls of an initial part of the list, in order and
    one per file, and nothing else; and it succeeds only if that part is
    the whole list. *)
Theorem X11_push_files_issues_a_prefix
  (arguments : Value) (args : Obj) (files : list Obj) (st : Backend X) :
  truthy arguments = true ->
  Schema_parse X PushFilesSchema arguments = inr args ->
  args.["files"] = JArr (map JObj files) ->
  exists k w,
    k <= length files
    /\ snd (CallTool X false
              {| params_name := "push_files";
                 params_arguments := arguments |} st)
       = after X st (map (file_call args) (firstn k files)) w
    /\ (forall v,
           fst (CallTool X false
                  {| params_name := "push_files";
                     params_arguments := arguments |} st) = inr v ->
           k = length files).
Proof.
  intros Ha Hp Hfiles.
  rewrite (CallTool_validated X false "push_files" arguments
             (case_push_files X) args st Ha eq_refl eq_refl Hp eq_refl).
  destruct (push_files_loop_prefix args files [] st)
    as (k & w & Hk & Hst & Hres).
  exists k, w. split; [exact Hk|].
  unfold try_catch. rewrite (push_files_body args files st Hfiles).
  destruct (push_files_loop X args (map JObj files) [] st)
    as [[e|results] st1]; simpl in Hst, Hres.
  - destruct e; simpl; (split; [exact Hst | intros v H; discriminate H]).
  - simpl. split; [exact Hst|].
    intros v _. exact (proj1 (Hres results eq_refl)).
Qed.

End Responses.

(** ** Order of the additional checks *)

Section CheckOrder.

Local Open Scope string_scope.
Local Open Scope Z_scope.

Variable X : Collaborators.

(** An invocation whose parsed arguments a check refuses fails with the
    message of that check, as it is, and leaves the backend untouched. *)
Lemma CallTool_refused (GITLAB_READ_ONLY_MODE : bool) (n : string)
  (arguments : Value) (c : ToolCase X) (args : Obj) (msg : string)
  (st : Backend X) :
  truthy arguments = true ->
  read_only_check X GITLAB_READ_ONLY_MODE n = inr tt ->
  switch X n = Some c ->
  Schema_parse X (schema c) arguments = inr args ->
  checks c args = inl (Error msg) ->
  CallTool X GITLAB_READ_ONLY_MODE
    {| params_name := n; params_arguments := arguments |} st
  = (inl (Error msg), st).
Proof.
  intros Ha Hg Hc Hp Hk.
  rewrite (CallTool_allowed X _ _ _ _ Ha Hg), Hc.
  apply (run_case_rejected X c arguments args (Error msg) st Hp Hk).
Qed.

(** X12.  In each of the six tools that check pagination, a [per_page]
    below 0 or above 100 is what the invocation fails on, with
    "per_page must be between 1 and 100" and no call issued, whatever
    [page] and the date fields hold: it is the first check. *)
Theorem X12_per_page_is_checked_first
  (GITLAB_READ_ONLY_MODE : bool) (n : string) (arguments : Value)
  (c : ToolCase X) (args : Obj) (k : Z) (st : Backend X) :
  truthy arguments = true ->
  read_only_check X GITLAB_READ_ONLY_MODE n = inr tt ->
  switch X n = Some c ->
  In c (paginated_cases X) ->
  Schema_parse X (schema c) arguments = inr args ->
  args.["per_page"] = JNum k ->
  k < 0 \/ 100 < k ->
  CallTool X GITLAB_READ_ONLY_MODE
    {| params_name := n; params_arguments := arguments |} st
  = (inl (Error "per_page must be between 1 and 100"), st).
Proof.
  intros Ha Hg Hc Hin Hp Hpp Hk.
  apply (CallTool_refused _ n arguments c args _ st Ha Hg Hc Hp).
  apply (paginated_per_page_refused X c args k Hin Hpp Hk).
Qed.

(** X13.  In each of those six tools, once [per_page] passes its check a
    negative [page] is what the invocation fails on, with
    "page must be greater than 0" and no call issued, whatever the date
    fields hold: it is checked before them. *)
Theorem X13_page_is_checked_before_dates
  (GITLAB_READ_ONLY_MODE : bool) (n : string) (arguments : Value)
  (c : ToolCase X) (args : Obj) (k : Z) (st : Backend X) :
  truthy arguments = true ->
  read_only_check X GITLAB_READ_ONLY_MODE n = inr tt ->
  switch X n = Some c ->
  In c (paginated_cases X) ->
  Schema_parse X (schema c) arguments = inr args ->
  check_per_page X args = inr tt ->
  args.["page"] = JNum k ->
  k < 0 ->
  CallTool X GITLAB_READ_ONLY_MODE
    {| params_name := n; params_arguments := arguments |} st
  = (inl (Error "page must be greater than 0"), st).
Proof.
  intros Ha Hg Hc Hin Hp Hpp Hpage Hk.
  apply (CallTool_refused _ n arguments c args _ st Ha Hg Hc Hp).
  apply (paginated_page_refused X c args k Hin Hpp Hpage Hk).
Qed.

(** A [forEach] whose callback may throw either runs it on every element
    without a throw, or throws what the callback throws on the first
    element it throws on. *)
Lemma forEach_first_throw {A} (f : A -> JsError + unit) (l : list A) :
  (forEach l f = inr tt /\ forall x, In x l -> f x = inr tt)
  \/ (exists pre x post e,
         l = (pre ++ x :: post)%list
         /\ (forall y, In y pre -> f y = inr tt)
         /\ f x = inl e
         /\ forEach l f = inl e).
Proof.
  induction l as [|a l IH]; simpl.
  - left. split; [reflexivity | intros x []].
  - destruct (f a) as [e|[]] eqn:Ha; simpl.
    + right. exists [], a, l, e. repeat split; try assumption.
      intros y [].
    + destruct IH as [[Hall Hin]|(pre & x & post & e & -> & Hpre & Hx & He)].
      * left. split; [exact Hall|]. intros x [<-|Hx]; [exact Ha | now apply Hin].
      * right. exists (a :: pre), x, post, e. repeat split; try assumption.
        intros y [<-|Hy]; [exact Ha | now apply Hpre].
Qed.

(** X14.  [list_issues] and [list_merge_requests], once the pagination
    checks pass, look at [created_after], [created_before],
    [updated_after] and [updated_before] in that order and only at those
    that are strings.  Either every string among them is a valid date and
    the checks pass, or the checks fail naming the first one that is not. *)
Theorem X14_date_fields_first_offender
  (c : ToolCase X) (args : Obj) :
  In c [case_list_issues X; case_list_merge_requests X] ->
  check_per_page X args = inr tt ->
  check_page X args = inr tt ->
  (checks c args = inr tt
   /\ forall field, In field dateFields ->
        is_string args.[field] = true ->
        isValidISODate X args.[field] = true)
  \/ (exists before field rest,
         dateFields = (before ++ field :: rest)%list
         /\ (forall earlier, In earlier before ->
               is_string args.[earlier] = true ->
               isValidISODate X args.[earlier] = true)
         /\ is_string args.[field] = true
         /\ isValidISODate X args.[field] = false
         /\ checks c args
            = inl (Error (field ++ " must be a valid ISO 8601 date "
                          ++ "(YYYY-MM-DDTHH:MM:SSZ)"))).
Proof.
  intros Hc Hpp Hp.
  assert (Hchecks : checks c args = check_dateFields X args).
  { destruct Hc as [<-|[<-|[]]]; simpl; now rewrite Hpp, Hp. }
  rewrite Hchecks. unfold check_dateFields.
  set (f := fun field : string =>
              when (is_string args.[field]
                    && negb (isValidISODate X args.[field]))
                   (field ++ " must be a valid ISO 8601 date "
                    ++ "(YYYY-MM-DDTHH:MM:SSZ)")).
  assert (Hf : forall field,
             f field = inr tt <->
             (is_string args.[field] = true ->
              isValidISODate X args.[field] = true)).
  { intros field. unfold f, when.
    destruct (is_string args.[field]), (isValidISODate X args.[field]);
      simpl; split; intros H; try reflexivity; try discriminate;
      try (intros _; reflexivity).
    specialize (H eq_refl). discriminate. }
  destruct (forEach_first_throw f dateFields)
    as [[Hall Hin]|(pre & x & post & e & Hsplit & Hpre & Hx & He)].
  - left. split; [exact Hall|]. intros field Hfield. now apply Hf, Hin.
  - right. exists pre, x, post. split; [exact Hsplit|].
    split; [intros y Hy; now apply Hf, Hpre|].
    unfold f, when in Hx.
    destruct (is_string args.[x]), (isValidISODate X args.[x]);
      simpl in Hx; try discriminate.
    repeat split. exact (eq_trans He (eq_sym Hx)).
Qed.

End CheckOrder.

Section MoreRuns.

Local Open Scope string_scope.


Lemma X9_create_branch_default_ref_witness :
  CallTool Sample.X false
    (Sample.request "create_branch" (JObj Sample.branch_args_ref)) Sample.st0
  = (inr (json_content Sample.X (JArr [])),
     Build_Backend Sample.X []
       [ {| method := "createBranch";
            params := [JStr "123";
                       JObj [("name", JStr "feature");
                             ("ref", JStr "main")]] |} ])
  /\ CallTool Sample.X false
       (Sample.request "create_branch" (JObj Sample.branch_args)) Sample.st0
     = (inr (json_content Sample.X (JArr [])),
        Build_Backend Sample.X []
          [ {| method := "getDefaultBranchRef"; params := [JStr "123"] |};
            {| method := "createBranch";
               params := [JStr "123";
                          JObj [("name", JStr "feature");
                                ("ref", JArr [])]] |} ]).
Proof.
  split.
  - apply (proj1 (X9_create_branch_default_ref Sample.X
                    (JObj Sample.branch_args_ref) Sample.branch_args_ref
                    Sample.st0 eq_refl eq_refl)).
    reflexivity.
  - apply (proj2 (X9_create_branch_default_ref Sample.X
                    (JObj Sample.branch_args) Sample.branch_args
                    Sample.st0 eq_refl eq_refl)).
    reflexivity.
Defined.

Lemma X10_push_files_empty_witness :
  CallTool Sample.X false
    (Sample.request "push_files" (JObj (Sample.push_args []))) Sample.st0
  = (inr (json_content Sample.X (JArr [])), Sample.st0).
Proof.
  apply (X10_push_files_empty Sample.X (JObj (Sample.push_args []))
           (Sample.push_args []) Sample.st0);
    reflexivity.
Defined.

Lemma X11_push_files_issues_a_prefix_witness :
  exists k w,
    k <= 3
    /\ snd (CallTool Sample.X false
              (Sample.request "push_files"
                 (JObj (Sample.push_args
                    [Sample.file_a; Sample.file_locked; Sample.file_c])))
              Sample.st0)
       = after Sample.X Sample.st0
           (map (file_call
                   (Sample.push_args
                      [Sample.file_a; Sample.file_locked; Sample.file_c]))
                (firstn k [Sample.file_a; Sample.file_locked; Sample.file_c]))
           w
    /\ (forall v,
           fst (CallTool Sample.X false
                  (Sample.request "push_files"
                     (JObj (Sample.push_args
                        [Sample.file_a; Sample.file_locked; Sample.file_c])))
                  Sample.st0) = inr v ->
           k = 3).
Proof.
  apply (X11_push_files_issues_a_prefix Sample.X
           (JObj (Sample.push_args
              [Sample.file_a; Sample.file_locked; Sample.file_c]))
           (Sample.push_args
              [Sample.file_a; Sample.file_locked; Sample.file_c])
           [Sample.file_a; Sample.file_locked; Sample.file_c] Sample.st0);
    reflexivity.
Defined.

Lemma X12_per_page_is_checked_first_witness :
  CallTool Sample.X true
    (Sample.request "list_commits" (JObj Sample.all_wrong)) Sample.st0
  = (inl (Error "per_page must be between 1 and 100"), Sample.st0).
Proof.
  apply (X12_per_page_is_checked_first Sample.X true "list_commits"
           (JObj Sample.all_wrong) (case_list_commits Sample.X)
           Sample.all_wrong 101 Sample.st0);
    try reflexivity.
  - right. left. reflexivity.
  - right. reflexivity.
Defined.

Lemma X13_page_is_checked_before_dates_witness :
  CallTool Sample.X true
    (Sample.request "list_commits" (JObj Sample.page_and_since_wrong))
    Sample.st0
  = (inl (Error "page must be greater than 0"), Sample.st0).
Proof.
  apply (X13_page_is_checked_before_dates Sample.X true "list_commits"
           (JObj Sample.page_and_since_wrong) (case_list_commits Sample.X)
           Sample.page_and_since_wrong (-1) Sample.st0);
    try reflexivity.
  right. left. reflexivity.
Defined.

Lemma X14_date_fields_first_offender_witness :
  (checks (case_list_issues Sample.X) Sample.second_date_wrong = inr tt
   /\ forall field, In field dateFields ->
        is_string (Sample.second_date_wrong).[field] = true ->
        isValidISODate Sample.X (Sample.second_date_wrong).[field] = true)
  \/ (exists before field rest,
         dateFields = (before ++ field :: rest)%list
         /\ (forall earlier, In earlier before ->
               is_string (Sample.second_date_wrong).[earlier] = true ->
               isValidISODate Sample.X (Sample.second_date_wrong).[earlier]
               = true)
         /\ is_string (Sample.second_date_wrong).[field] = true
         /\ isValidISODate Sample.X (Sample.second_date_wrong).[field] = false
         /\ checks (case_list_issues Sample.X) Sample.second_date_wrong
            = inl (Error (field ++ " must be a valid ISO 8601 date "
                          ++ "(YYYY-MM-DDTHH:MM:SSZ)"))).
Proof.
  apply (X14_date_fields_first_offender Sample.X (case_list_issues Sample.X)
           Sample.second_date_wrong).
  - left. reflexivity.
  - reflexivity.
  - reflexivity.
Defined.

(** On the sample it is [created_before] that is named, not the later
    [updated_after]. *)
Example second_date_wrong_run :
  CallTool Sample.X false
    (Sample.request "list_issues" (JObj Sample.second_date_wrong)) Sample.st0
  = (inl (Error
       "created_before must be a valid ISO 8601 date (YYYY-MM-DDTHH:MM:SSZ)"),
     Sample.st0).
Proof. reflexivity. Qed.

End MoreRuns.

(** ** What is validated and what is forwarded *)

Section Forwarding.

Local Open Scope string_scope.

Variable X : Collaborators.

(** X15.  Only six tools check anything beyond their schema.  For every
    other tool, whatever arguments its schema lets through pass the
    additional checks: a [per_page] of 1000 given to [search_repositories],
    say, is not looked at by the handler. *)
Theorem X15_other_tools_check_nothing
  (n : string) (c : ToolCase X) (args : Obj) :
  switch X n = Some c ->
  ~ In n paginated_names ->
  checks c args = inr tt.
Proof.
  intros Hc Hn. apply switch_In in Hc. unfold cases in Hc. simpl In in Hc.
  repeat (destruct Hc as [Hc|Hc];
          [ injection Hc as <- <-;
            first [ reflexivity
                  | exfalso; apply Hn; unfold paginated_names; simpl; tauto ]
          | ]).
  destruct Hc.
Qed.

(** What is left of an object once a key is taken out of it. *)
Lemma rest_get_same (o : Obj) (k : string) : (rest o k).[k] = JUndefined.
Proof.
  induction o as [|[k' v] o IH]; simpl; [reflexivity|].
  destruct (String.eqb_spec k' k) as [E|NE]; simpl; [exact IH|].
  destruct (String.eqb_spec k' k) as [E|_]; [now elim NE | exact IH].
Qed.

Lemma rest_get_other (o : Obj) (k k' : string) :
  k' <> k -> (rest o k).[k'] = o.[k'].
Proof.
  intros Hk. induction o as [|[k0 v] o IH]; simpl; [reflexivity|].
  destruct (String.eqb_spec k0 k) as [E|NE]; simpl.
  - destruct (String.eqb_spec k0 k') as [E'|_]; [|exact IH].
    elim Hk. now rewrite <- E', E.
  - now destruct (String.eqb_spec k0 k').
Qed.

(** X16.  The tools that split their arguments into [project_id] and the
    rest call the client with exactly two parameters: the [project_id] as
    it was parsed, and an options object that has no [project_id] and
    holds every other parsed field unchanged. *)
Theorem X16_project_id_split_from_options
  (GITLAB_READ_ONLY_MODE : bool) (n : string) (arguments : Value)
  (c : ToolCase X) (args : Obj) (st : Backend X) :
  truthy arguments = true ->
  read_only_check X GITLAB_READ_ONLY_MODE n = inr tt ->
  switch X n = Some c ->
  In c (project_options_cases X) ->
  Schema_parse X (schema c) arguments = inr args ->
  checks c args = inr tt ->
  exists m options,
    calls (snd (CallTool X GITLAB_READ_ONLY_MODE
                  {| params_name := n; params_arguments := arguments |} st))
    = (calls st
       ++ [{| method := m;
              params := [args.["project_id"]; JObj options] |}])%list
    /\ options.["project_id"] = JUndefined
    /\ forall k, k <> "project_id" -> options.[k] = args.[k].
Proof.
  intros Ha Hg Hc Hin Hp Hk.
  rewrite (CallTool_validated X _ n arguments c args st Ha Hg Hc Hp Hk).
  assert (Hrun : exists m format,
             try_catch X (body c args) (on_error X) st
             = single_call X
                 {| method := m;
                    params := [args.["project_id"];
                               JObj (rest args "project_id")] |}
                 format st).
  { unfold project_options_cases in Hin. simpl In in Hin.
    repeat (destruct Hin as [<-|Hin];
            [eexists; eexists; apply run_single_call|]).
    destruct Hin. }
  destruct Hrun as (m & format & ->).
  exists m, (rest args "project_id"). split; [|split].
  - unfold single_call. now destruct (gitlabApi X _ (world st)).
  - apply rest_get_same.
  - intros k Hne. now apply rest_get_other.
Qed.

End Forwarding.

Section ForwardingRuns.

Local Open Scope string_scope.

Lemma X15_other_tools_check_nothing_witness :
  checks (case_search_repositories Sample.X)
    [("search", JStr "rocq"); ("per_page", JNum 1000); ("page", JNum (-5))]
  = inr tt.
Proof.
  apply (X15_other_tools_check_nothing Sample.X "search_repositories"
           (case_search_repositories Sample.X)
           [("search", JStr "rocq"); ("per_page", JNum 1000);
            ("page", JNum (-5))]).
  - reflexivity.
  - unfold paginated_names. simpl.
    intros [H|[H|[H|[H|[H|[H|[]]]]]]]; discriminate H.
Defined.

Lemma X16_project_id_split_from_options_witness :
  exists m options,
    calls (snd (CallTool Sample.X false
                  (Sample.request "create_issue"
                     (JObj [("title", JStr "Bug"); ("project_id", JStr "123");
                            ("labels", JStr "a,b")]))
                  Sample.st0))
    = ([] ++ [{| method := m; params := [JStr "123"; JObj options] |}])%list
    /\ options.["project_id"] = JUndefined
    /\ forall k, k <> "project_id" ->
         options.[k]
         = [("title", JStr "Bug"); ("project_id", JStr "123");
            ("labels", JStr "a,b")].[k].
Proof.
  apply (X16_project_id_split_from_options Sample.X false "create_issue"
           (JObj [("title", JStr "Bug"); ("project_id", JStr "123");
                  ("labels", JStr "a,b")])
           (case_create_issue Sample.X)
           [("title", JStr "Bug"); ("project_id", JStr "123");
            ("labels", JStr "a,b")]
           Sample.st0);
    try reflexivity.
  left. reflexivity.
Defined.

Lemma X1_advertised_schema_is_enforced_witness :
  exists c,
    switch Sample.X (name Sample.create_issue_tool) = Some c
    /\ inputSchema Sample.create_issue_tool
       = createJsonSchema Sample.X (schema c).
Proof.
  apply (X1_advertised_schema_is_enforced Sample.X Sample.create_issue_tool).
  do 5 right. left. reflexivity.
Defined.

Lemma X2_input_schema_shape_witness :
  exists props,
    inputSchema Sample.create_issue_tool
    = JObj [("type", JStr "object"); ("properties", props)]
    /\ truthy props = true.
Proof.
  apply (X2_input_schema_shape Sample.X Sample.create_issue_tool).
  do 5 right. left. reflexivity.
Defined.

End ForwardingRuns.
